(** * FBI crime data dashboard: loader, reshape, ranking and view dispatch

    A shallow embedding of [fbi_crime_data_analysis_app.py].  The script is a
    Streamlit page: [load_data] reads ten CSV files into a dictionary of
    pandas data frames (melting the two sex tables), the sidebar picks one of
    six views, and the dispatch at the bottom renders the chosen view with
    [plot_bar_chart] and [plot_pie_chart].

    Python objects live in a heap of data frames addressed by references, so
    that in-place mutation would be expressible; exceptions are an explicit
    outcome; the Streamlit calls append to a log of user-interface events. *)

From Stdlib Require Import String Ascii.
From Stdlib Require Import ZArith List Bool Arith Lia.
From Stdlib Require Import Permutation Sorted.
Import ListNotations.
Open Scope string_scope.
Open Scope list_scope.

(** ** Python values and exceptions *)

(** The exception classes that can reach the script.  [FileNotFoundError] is
    the only one [load_data] catches; the other read errors are siblings of it
    under [OSError], which name the file like it, or come from the pandas
    parser, which does not. *)
Inductive exn : Type :=
| FileNotFoundError (filename : string)
| PermissionError (filename : string)
| IsADirectoryError (filename : string)
| EmptyDataError
| ParserError
| UnicodeDecodeError
| KeyError (key : string)
| ValueError (msg : string)
| TypeError
| IndexError.

Inductive outcome (A : Type) : Type :=
| Ok (a : A)
| Raise (e : exn).
Arguments Ok {A} a.
Arguments Raise {A} e.

(** [needle in hay] on Python strings. *)
Fixpoint str_contains (needle hay : string) : bool :=
  String.prefix needle hay ||
  match hay with
  | EmptyString => false
  | String _ rest => str_contains needle rest
  end.

(** ** pandas *)

Module Pandas.

(** A cell of a frame read by [read_csv]: a number (counts are integers), a
    text, or the missing value.  [read_csv] turns empty fields and the usual
    NA markers into [NaN] and pads short lines with it. *)
Inductive cell : Type :=
| Num (z : Z)
| Str (s : string)
| NaN.

Definition isna (c : cell) : bool :=
  match c with NaN => true | _ => false end.

Definition is_num (c : cell) : bool :=
  match c with Num _ => true | _ => false end.

Definition is_str (c : cell) : bool :=
  match c with Str _ => true | _ => false end.

(** Numbers and texts side by side: Python refuses to compare them. *)
Definition mixed (a : list cell) : bool :=
  existsb is_num a && existsb is_str a.

(** Column labels and the rows under them, in order.  The row index labels
    are not modelled: nothing in the script reads them. *)
Record DataFrame : Type := mkDataFrame {
  columns : list string;
  rows : list (list cell)
}.

(** Every row has one cell per column, as in every frame pandas builds. *)
Definition rectangular (df : DataFrame) : Prop :=
  Forall (fun r => length r = length (columns df)) (rows df).

Definition has_column (name : string) (df : DataFrame) : bool :=
  existsb (String.eqb name) (columns df).

(** Position of a label among the columns. *)
Fixpoint col_index (name : string) (cols : list string) : option nat :=
  match cols with
  | [] => None
  | c :: cols' =>
      if String.eqb name c then Some 0
      else option_map S (col_index name cols')
  end.

Definition cell_at (j : nat) (r : list cell) : cell := nth j r NaN.

(** [df[name]]: the cells of one column, top to bottom. *)
Definition get_column (df : DataFrame) (name : string) : outcome (list cell) :=
  match col_index name (columns df) with
  | None => Raise (KeyError name)
  | Some j => Ok (map (cell_at j) (rows df))
  end.

Definition enumerate {A : Type} (l : list A) : list (nat * A) :=
  combine (seq 0 (length l)) l.

(** [df.melt(var_name=..., value_name=...)] with no [id_vars]: every column is
    unpivoted, column by column and, within a column, row by row.  pandas
    refuses a [value_name] that is already a column label. *)
Definition melt (df : DataFrame) (var_name value_name : string)
  : outcome DataFrame :=
  if has_column value_name df then
    Raise (ValueError "value_name cannot match an element in the DataFrame columns.")
  else
    Ok {| columns := [var_name; value_name];
          rows := flat_map
                    (fun jc => map (fun r => [Str (snd jc); cell_at (fst jc) r])
                                   (rows df))
                    (enumerate (columns df)) |}.

(** [df.head(n)]. *)
Definition head (df : DataFrame) (n : nat) : DataFrame :=
  {| columns := columns df; rows := firstn n (rows df) |}.

(** The numeric content of a cell, for [Series.sum()], which skips what is
    not a number. *)
Definition cell_num (c : cell) : Z :=
  match c with Num z => z | _ => 0%Z end.

Definition zsum (l : list Z) : Z := fold_right Z.add 0%Z l.

Definition series_sum (s : list cell) : Z := zsum (map cell_num s).

(** Sum of all numeric cells of a frame. *)
Definition cells_sum (df : DataFrame) : Z :=
  zsum (map series_sum (rows df)).

(** Sum of one column; 0 when the column is absent. *)
Definition column_sum (df : DataFrame) (name : string) : Z :=
  match get_column df name with
  | Ok s => series_sum s
  | Raise _ => 0%Z
  end.

(** [DataFrame.take(indexer)]: the rows at the given positions, in the given
    order; a position past the end is an [IndexError]. *)
Definition take (df : DataFrame) (indexer : list nat) : outcome DataFrame :=
  if forallb (fun i => Nat.ltb i (length (rows df))) indexer then
    Ok {| columns := columns df;
          rows := map (fun i => nth i (rows df) []) indexer |}
  else Raise IndexError.

(** numpy fancy indexing [a[ix]] on an array of positions. *)
Definition fancy_index (a : list nat) (ix : list nat) : outcome (list nat) :=
  if forallb (fun p => Nat.ltb p (length a)) ix then
    Ok (map (fun p => nth p a 0) ix)
  else Raise IndexError.

Section Sorting.

(** numpy's [a.argsort(kind="quicksort")], the kind [sort_values] uses when
    none is given.  It is taken as a parameter: its result is a rearrangement
    of the positions, which on an array of numbers puts the values in
    ascending order, and numpy promises nothing about the order of equal
    values (only the kinds "stable" and "mergesort" do).  The order it gives
    to texts is not modelled. *)
Variable argsort : list cell -> list nat.

(** [pandas.core.sorting.nargsort(items, kind, ascending, na_position="last")]:
    the missing values are set aside, the others are arg-sorted (on the
    reversed array and with the result reversed when descending), and the
    positions of the missing values are appended in their original order.
    Sorting numbers together with texts is a [TypeError]. *)
Definition nargsort (items : list cell) (ascending : bool)
  : outcome (list nat) :=
  let idx := seq 0 (length items) in
  let non_nan_idx := filter (fun i => negb (isna (cell_at i items))) idx in
  let nan_idx := filter (fun i => isna (cell_at i items)) idx in
  let non_nans := map (fun i => cell_at i items) non_nan_idx in
  let non_nans := if ascending then non_nans else rev non_nans in
  let non_nan_idx := if ascending then non_nan_idx else rev non_nan_idx in
  if mixed non_nans then Raise TypeError
  else
    match fancy_index non_nan_idx (argsort non_nans) with
    | Raise e => Raise e
    | Ok indexer =>
        let indexer := if ascending then indexer else rev indexer in
        Ok (indexer ++ nan_idx)
    end.

(** [df.sort_values(by=by, ascending=ascending)], a new frame. *)
Definition sort_values (df : DataFrame) (by_ : string) (ascending : bool)
  : outcome DataFrame :=
  match get_column df by_ with
  | Raise e => Raise e
  | Ok k =>
      match nargsort k ascending with
      | Raise e => Raise e
      | Ok indexer => take df indexer
      end
  end.

End Sorting.

(** What the parameter [argsort] is assumed to do: rearrange the positions,
    and on an array of numbers put the values in ascending order. *)
Definition argsort_sorts (argsort : list cell -> list nat) : Prop :=
  forall a,
    Permutation (argsort a) (seq 0 (length a)) /\
    (forallb is_num a = true ->
     Sorted Z.le (map (fun i => cell_num (cell_at i a)) (argsort a))).

(** Two functions that meet that contract, both insertion sorts over the
    positions: the first puts a later equal value after the earlier ones
    (stable), the second before them.  Neither is numpy's sort; they
    instantiate the parameter where an instance is needed. *)
Fixpoint insert_by (before : nat -> nat -> bool) (i : nat) (l : list nat)
  : list nat :=
  match l with
  | [] => [i]
  | j :: l' => if before i j then i :: j :: l' else j :: insert_by before i l'
  end.

Definition insertion_argsort (before : list cell -> nat -> nat -> bool)
  (a : list cell) : list nat :=
  fold_left (fun acc i => insert_by (before a) i acc) (seq 0 (length a)) [].

Definition argsort_stable : list cell -> list nat :=
  insertion_argsort
    (fun a i j => (cell_num (cell_at i a) <? cell_num (cell_at j a))%Z).


End Pandas.
Import Pandas.

Definition is_FileNotFoundError (e : exn) : bool :=
  match e with FileNotFoundError _ => true | _ => false end.

(** ** numpy *)

Module Numpy.

(** numpy's generic arg-quicksort ([aquicksort] of [npysort/quicksort]), the
    code behind [argsort(kind="quicksort")] where no vectorised sort is
    dispatched: an array of positions is sorted by the values they point to,
    with a median-of-three partition while a segment spans more than 16
    positions and an insertion sort below that.  Past the depth limit numpy
    switches to a heapsort, which is not modelled: the result is [None]
    there. *)

Section Quicksort.

(** The array of values being arg-sorted. *)
Variable v : list cell.

(** The comparison of two values by their positions; the array holds numbers
    when [nargsort] calls the sort. *)
Definition LT (i j : nat) : bool :=
  (cell_num (cell_at i v) <? cell_num (cell_at j v))%Z.

Definition get (a : list nat) (k : nat) : nat := nth k a 0.

Definition set (a : list nat) (k x : nat) : list nat :=
  if Nat.ltb k (length a) then firstn k a ++ x :: skipn (S k) a else a.

(** [INTP_SWAP(a[i], a[j])]. *)
Definition swap (a : list nat) (i j : nat) : list nat :=
  set (set a i (get a j)) j (get a i).

(** [do ++pi; while (LT(v[*pi], vp))], with the pivot given by its position
    in [v]. *)
Fixpoint scan_up (fuel : nat) (a : list nat) (pivot pi : nat) : nat :=
  match fuel with
  | 0 => pi
  | S fuel' =>
      if LT (get a (S pi)) pivot then scan_up fuel' a pivot (S pi) else S pi
  end.

(** [do --pj; while (LT(vp, v[*pj]))]. *)
Fixpoint scan_down (fuel : nat) (a : list nat) (pivot pj : nat) : nat :=
  match fuel with
  | 0 => pj
  | S fuel' =>
      if LT pivot (get a (pj - 1)) then scan_down fuel' a pivot (pj - 1)
      else pj - 1
  end.

(** The [for (;;)] loop of the partition: scan from both ends and swap until
    the scans meet. *)
Fixpoint partition_loop (fuel : nat) (a : list nat) (pivot pi pj : nat)
  : list nat * nat :=
  match fuel with
  | 0 => (a, pi)
  | S fuel' =>
      let pi := scan_up (length a) a pivot pi in
      let pj := scan_down (length a) a pivot pj in
      if Nat.leb pj pi then (a, pi)
      else partition_loop fuel' (swap a pi pj) pivot pi pj
  end.

(** One partition of the segment from [pl] to [pr]: the positions after it
    and where the pivot ended. *)
Definition partition (a : list nat) (pl pr : nat) : list nat * nat :=
  let pm := pl + Nat.div2 (pr - pl) in
  let a := if LT (get a pm) (get a pl) then swap a pm pl else a in
  let a := if LT (get a pr) (get a pm) then swap a pr pm else a in
  let a := if LT (get a pm) (get a pl) then swap a pm pl else a in
  let pivot := get a pm in
  let a := swap a pm (pr - 1) in
  let '(a, pi) := partition_loop (length a) a pivot pl (pr - 1) in
  (swap a pi (pr - 1), pi).

(** The inner [while] of the insertion sort: move [vi] down from [pj]. *)
Fixpoint sift (fuel : nat) (a : list nat) (pl vi pj : nat) : list nat :=
  match fuel with
  | 0 => set a pj vi
  | S fuel' =>
      if Nat.ltb pl pj && LT vi (get a (pj - 1))
      then sift fuel' (set a pj (get a (pj - 1))) pl vi (pj - 1)
      else set a pj vi
  end.

(** The insertion sort of the segment from [pl] to [pr]. *)
Definition insertion_sort (a : list nat) (pl pr : nat) : list nat :=
  fold_left (fun a pi => sift (length a) a pl (get a pi) pi)
            (seq (S pl) (pr - pl)) a.

(** The [while (1)] loop with its stack of postponed segments; [top] says
    that the depth limit is about to be tested. *)
Fixpoint run (fuel : nat) (top : bool) (a : list nat) (pl pr : nat)
  (cdepth : Z) (stack : list (nat * nat * Z)) : option (list nat) :=
  match fuel with
  | 0 => None
  | S fuel' =>
      if top && (cdepth <? 0)%Z then None
      else if Nat.ltb 16 (pr - pl) then
        let '(a, pi) := partition a pl pr in
        let cdepth := (cdepth - 1)%Z in
        if Nat.ltb (pi - pl) (pr - pi)
        then run fuel' false a pl (pi - 1) cdepth ((pi + 1, pr, cdepth) :: stack)
        else run fuel' false a (pi + 1) pr cdepth ((pl, pi - 1, cdepth) :: stack)
      else
        let a := insertion_sort a pl pr in
        match stack with
        | [] => Some a
        | (pl, pr, cdepth) :: stack => run fuel' true a pl pr cdepth stack
        end
  end.

(** [aquicksort(v, tosort, num)] on the positions 0 .. num - 1. *)
Definition aquicksort : option (list nat) :=
  let num := length v in
  if Nat.eqb num 0 then Some []
  else run (2 * num + 2) true (seq 0 num) 0 (num - 1)
           (2 * Z.log2 (Z.of_nat num)) [].

End Quicksort.

(** [a.argsort(kind="quicksort")] by the generic quicksort; the positions
    unchanged stand for a result that is not modelled. *)
Definition argsort (a : list cell) : list nat :=
  match aquicksort a with
  | Some ix => ix
  | None => seq 0 (length a)
  end.

End Numpy.

(** ** plotly.express *)

Module Plotly.

(** A figure keeps its own copy of the data it was built from.  The labels,
    the template, the hole of the donut and the later [update_layout] and
    [update_traces] calls only change how it is drawn and are left out. *)
Inductive figure : Type :=
| Bar (data_frame : DataFrame) (x y color title : string)
| Pie (data_frame : DataFrame) (names values title : string).

(** [px.bar(df, x=, y=, color=, title=)]; a column argument that is not a
    column of the frame is a [ValueError]. *)
Definition bar (df : DataFrame) (x y color title : string) : outcome figure :=
  if has_column x df && has_column y df && has_column color df then
    Ok (Bar df x y color title)
  else Raise (ValueError "Value of argument is not the name of a column in data_frame").

(** [px.pie(df, names=, values=, title=, hole=0.3)]. *)
Definition pie (df : DataFrame) (names values title : string) : outcome figure :=
  if has_column names df && has_column values df then
    Ok (Pie df names values title)
  else Raise (ValueError "Value of argument is not the name of a column in data_frame").

End Plotly.

(** ** The process state *)

(** A reference to a data frame object. *)
Definition ref : Type := nat.

(** What Streamlit is asked to show, in call order. *)
Inductive ui_event : Type :=
| StError (body : string)
| StWarning (body : string)
| StTitle (body : string)
| StMarkdown (body : string)
| StDivider
| StHeader (body : string)
| StSubheader (body : string)
| StCaption (body : string)
| StColumns (n : nat)
| StEnter (column : nat)
| StExit (column : nat)
| StPlotlyChart (fig : Plotly.figure)
| StDataframe (df : DataFrame) (highlight_max : bool)
| StSidebarTitle (body : string)
| StSidebarInfo (body : string)
| StSidebarRadio (label : string) (options : list string).

(** The heap of frame objects, the paths handed to [read_csv] so far, and the
    Streamlit calls made so far. *)
Record world : Type := mkWorld {
  heap : list DataFrame;
  opened : list string;
  ui : list ui_event
}.

Definition empty_world : world := {| heap := []; opened := []; ui := [] |}.

(** A computation that reads and extends the world and returns or raises. *)
Definition M (A : Type) : Type := world -> outcome A * world.

Definition ret {A : Type} (a : A) : M A := fun w => (Ok a, w).

Definition raise {A : Type} (e : exn) : M A := fun w => (Raise e, w).

Definition bind {A B : Type} (m : M A) (f : A -> M B) : M B :=
  fun w =>
    match m w with
    | (Ok a, w') => f a w'
    | (Raise e, w') => (Raise e, w')
    end.

Declare Scope py_scope.
Delimit Scope py_scope with py.
Notation "x <- m ;; k" := (bind m (fun x => k))
  (at level 100, m at next level, right associativity) : py_scope.
Notation "m ;;; k" := (bind m (fun _ => k))
  (at level 100, right associativity) : py_scope.
Open Scope py_scope.

Definition lift {A : Type} (o : outcome A) : M A := fun w => (o, w).

(** A new frame object. *)
Definition alloc (df : DataFrame) : M ref :=
  fun w => (Ok (length (heap w)),
            {| heap := heap w ++ [df]; opened := opened w; ui := ui w |}).

(** The frame behind a reference. *)
Definition deref (r : ref) : M DataFrame :=
  fun w => match nth_error (heap w) r with
           | Some df => (Ok df, w)
           | None => (Raise IndexError, w)
           end.

Definition emit (e : ui_event) : M unit :=
  fun w => (Ok tt, {| heap := heap w; opened := opened w; ui := ui w ++ [e] |}).

(** [try: body except FileNotFoundError: handler]. *)
Definition try_except_FileNotFoundError {A : Type} (body handler : M A) : M A :=
  fun w =>
    match body w with
    | (Raise (FileNotFoundError _), w') => handler w'
    | r => r
    end.

(** [with column: body]: the column is left again when the body raises. *)
Definition with_column {A : Type} (column : nat) (body : M A) : M A :=
  fun w =>
    match (emit (StEnter column) ;;; body) w with
    | (r, w') => (r, snd (emit (StExit column) w'))
    end.

(** ** Dictionaries *)

(** A Python [dict] with text keys: insertion-ordered, one entry per key. *)
Definition dict (V : Type) : Type := list (string * V).

Fixpoint dict_get {V : Type} (d : dict V) (k : string) : option V :=
  match d with
  | [] => None
  | (k', v) :: d' => if String.eqb k k' then Some v else dict_get d' k
  end.

(** [d[k] = v]. *)
Fixpoint dict_set {V : Type} (d : dict V) (k : string) (v : V) : dict V :=
  match d with
  | [] => [(k, v)]
  | (k', v') :: d' =>
      if String.eqb k k' then (k, v) :: d' else (k', v') :: dict_set d' k v
  end.

Definition dict_keys {V : Type} (d : dict V) : list string := map fst d.

(** [d[k]] as an expression. *)
Definition getitem {V : Type} (d : dict V) (k : string) : M V :=
  match dict_get d k with
  | Some v => ret v
  | None => raise (KeyError k)
  end.

(** ** The script *)

Fixpoint ends_with_sep (s : string) : bool :=
  match s with
  | EmptyString => false
  | String c EmptyString => Ascii.eqb c "/"
  | String _ rest => ends_with_sep rest
  end.

(** [os.path.join(a, b)] on POSIX. *)
Definition os_path_join (a b : string) : string :=
  if String.prefix "/" b then b
  else if String.eqb a "" || ends_with_sep a then String.append a b
  else String.append a (String.append "/" b).

(** The [files] dictionary of [load_data], in source order. *)
Definition files : dict string :=
  [ ("offense_linked", "Offense Linked to Another Offense_09-30-2025.csv");
    ("weapon_type", "Type of Weapon Involved by Offense_09-30-2025.csv");
    ("victim_relationship", "Victim's Relationship to Offender_09-30-2025.csv");
    ("location_type", "Location Type_09-30-2025.csv");
    ("victim_ethnicity", "Victim ethnicity_09-30-2025.csv");
    ("offender_ethnicity", "Offender ethnicity_09-30-2025.csv");
    ("victim_race", "Victim race_09-30-2025.csv");
    ("offender_race", "Offender race_09-30-2025.csv");
    ("victim_sex", "Victim sex_09-30-2025.csv");
    ("offender_sex", "Offender sex_09-30-2025.csv") ].

Definition dataset_options : dict string :=
  [ ("Offense Linked to Another Offense", "offense_linked");
    ("Type of Weapon Involved", "weapon_type");
    ("Victim's Relationship to Offender", "victim_relationship");
    ("Location Type", "location_type");
    ("Victim Demographics", "victim_demographics");
    ("Offender Demographics", "offender_demographics") ].

Section Script.

(** The directory of the script, [os.path.dirname(os.path.abspath(__file__))]. *)
Variable base_dir : string.

(** The file system as [pd.read_csv] sees it: for each path the frame it
    parses or the exception it raises ([FileNotFoundError] for a path that
    does not exist). *)
Variable fs : string -> outcome DataFrame.

(** numpy's default argsort, see [Pandas.argsort_sorts]. *)
Variable argsort : list cell -> list nat.

(** The position the user picked in the sidebar radio group. *)
Variable picked : nat.

Definition pd_read_csv (filepath : string) : M ref :=
  fun w =>
    let w' := {| heap := heap w; opened := opened w ++ [filepath]; ui := ui w |} in
    match fs filepath with
    | Ok df => alloc df w'
    | Raise e => (Raise e, w')
    end.

(** The pandas methods the script calls return new objects. *)
Definition df_melt (df : ref) (var_name value_name : string) : M ref :=
  d <- deref df ;; m <- lift (melt d var_name value_name) ;; alloc m.

Definition df_sort_values (df : ref) (by_ : string) (ascending : bool) : M ref :=
  d <- deref df ;; s <- lift (sort_values argsort d by_ ascending) ;; alloc s.

Definition df_head (df : ref) (n : nat) : M ref :=
  d <- deref df ;; alloc (head d n).

Definition px_bar (df : ref) (x y color title : string) : M Plotly.figure :=
  d <- deref df ;; lift (Plotly.bar d x y color title).

Definition px_pie (df : ref) (names values title : string) : M Plotly.figure :=
  d <- deref df ;; lift (Plotly.pie d names values title).

Definition st_plotly_chart (fig : Plotly.figure) : M unit :=
  emit (StPlotlyChart fig).

(** [st.dataframe(df)], or [st.dataframe(df.style.highlight_max(...))].
    The styling is computed when Streamlit draws the table; what it may
    raise on the cells is not modelled. *)
Definition st_dataframe (df : ref) (highlight_max : bool) : M unit :=
  d <- deref df ;; emit (StDataframe d highlight_max).

(** [st.sidebar.radio(label, options)] returns the option the user picked,
    the first one when nothing valid is picked. *)
Definition st_sidebar_radio (label : string) (options : list string) : M string :=
  emit (StSidebarRadio label options) ;;;
  ret (nth picked options (hd "" options)).

(** The body of the [for key, filename in files.items()] loop: [Some data]
    to go on with the next entry, [None] for [return None]. *)
Definition load_entry (data : dict ref) (key filename : string)
  : M (option (dict ref)) :=
  let filepath := os_path_join base_dir filename in
  try_except_FileNotFoundError
    (df <- pd_read_csv filepath ;;
     df <- (if str_contains "sex" key
            then df_melt df "Category" "Count"
            else ret df) ;;
     ret (Some (dict_set data key df)))
    (emit (StError (String.append "❌ File not found: " filename)) ;;;
     ret None).

Fixpoint load_loop (items : dict string) (data : dict ref)
  : M (option (dict ref)) :=
  match items with
  | [] => ret (Some data)
  | (key, filename) :: rest =>
      r <- load_entry data key filename ;;
      match r with
      | Some data' => load_loop rest data'
      | None => ret None
      end
  end.

(** [load_data()]: [Some] dictionary, or [None].  The [st.cache_data]
    decorator only keeps the result for later runs and is left out. *)
Definition load_data : M (option (dict ref)) := load_loop files [].

(** [plot_bar_chart(df, title, x, y, color)]. *)
Definition plot_bar_chart (df : ref) (title x y color : string) : M unit :=
  df <- df_sort_values df y false ;;
  df <- df_head df 20 ;;
  fig <- px_bar df x y color title ;;
  st_plotly_chart fig ;;;
  st_dataframe df true.

(** [plot_pie_chart(df, title)]. *)
Definition plot_pie_chart (df : ref) (title : string) : M unit :=
  fig <- px_pie df "Category" "Count" title ;;
  st_plotly_chart fig ;;;
  st_dataframe df false.

(** The [if selected_key == ... elif ...] chain, for a loaded dictionary. *)
Definition render_view (d : dict ref) (selected_key : string) : M unit :=
  if String.eqb selected_key "offense_linked" then
    emit (StHeader "🔗 Offense Linked to Another Offense") ;;;
    emit (StCaption "Shows the most common offenses linked to another crime.") ;;;
    df <- getitem d "offense_linked" ;;
    plot_bar_chart df "Top 20 Linked Offenses" "key" "value" "key"
  else if String.eqb selected_key "weapon_type" then
    emit (StHeader "🔫 Type of Weapon Involved by Offense") ;;;
    emit (StCaption "Types of weapons most frequently involved in offenses.") ;;;
    df <- getitem d "weapon_type" ;;
    plot_bar_chart df "Weapon Types in Offenses" "key" "value" "key"
  else if String.eqb selected_key "victim_relationship" then
    emit (StHeader "👥 Victim's Relationship to Offender") ;;;
    emit (StCaption "Relationship patterns between victims and offenders.") ;;;
    df <- getitem d "victim_relationship" ;;
    plot_bar_chart df "Victim-Offender Relationships" "key" "value" "key"
  else if String.eqb selected_key "location_type" then
    emit (StHeader "📍 Location Type of Offenses") ;;;
    emit (StCaption "Where crimes are most likely to occur by location type.") ;;;
    df <- getitem d "location_type" ;;
    plot_bar_chart df "Top 20 Crime Locations" "key" "value" "key"
  else if String.eqb selected_key "victim_demographics" then
    emit (StHeader "🧍 Victim Demographics") ;;;
    emit (StCaption "Breakdown of victim demographics by race, ethnicity, and sex.") ;;;
    emit (StColumns 2) ;;;
    with_column 1
      (emit (StSubheader "Victim Race") ;;;
       df <- getitem d "victim_race" ;;
       plot_bar_chart df "Victim Race Distribution" "key" "value" "key") ;;;
    with_column 2
      (emit (StSubheader "Victim Ethnicity") ;;;
       df <- getitem d "victim_ethnicity" ;;
       plot_bar_chart df "Victim Ethnicity Distribution" "key" "value" "key") ;;;
    emit (StSubheader "Victim Sex") ;;;
    df <- getitem d "victim_sex" ;;
    plot_pie_chart df "Victim Sex Distribution"
  else if String.eqb selected_key "offender_demographics" then
    emit (StHeader "🧑‍⚖️ Offender Demographics") ;;;
    emit (StCaption "Breakdown of offender demographics by race, ethnicity, and sex.") ;;;
    emit (StColumns 2) ;;;
    with_column 1
      (emit (StSubheader "Offender Race") ;;;
       df <- getitem d "offender_race" ;;
       plot_bar_chart df "Offender Race Distribution" "key" "value" "key") ;;;
    with_column 2
      (emit (StSubheader "Offender Ethnicity") ;;;
       df <- getitem d "offender_ethnicity" ;;
       plot_bar_chart df "Offender Ethnicity Distribution" "key" "value" "key") ;;;
    emit (StSubheader "Offender Sex") ;;;
    df <- getitem d "offender_sex" ;;
    plot_pie_chart df "Offender Sex Distribution"
  else ret tt.

(** The [if data: ... else: st.warning(...)] block at the end of the script;
    [None] and the empty dictionary are false. *)
Definition dashboard (data : option (dict ref)) (selected_key : string) : M unit :=
  match data with
  | Some (entry :: d) => render_view (entry :: d) selected_key
  | _ =>
      emit (StWarning "⚠️ Data could not be loaded. Please ensure all CSV files are in the same directory.")
  end.

(** The script from [data = load_data()] to the end of the dashboard block
    (page configuration, styling and the footer are left out). *)
Definition script : M unit :=
  data <- load_data ;;
  emit (StSidebarTitle "📊 Navigation") ;;;
  emit (StSidebarInfo "Choose a dataset to explore FBI crime data.") ;;;
  selection <- st_sidebar_radio "Go to:" (dict_keys dataset_options) ;;
  selected_key <- getitem dataset_options selection ;;
  emit (StTitle "⚖️ FBI Crime Data Analysis Dashboard") ;;;
  emit (StMarkdown "Explore various aspects of FBI-reported crime data with interactive charts and tables.") ;;;
  emit StDivider ;;;
  dashboard data selected_key.

End Script.

(** Lines 81 to 167, what the script does once the radio has returned
    [selection]: the look-up in [dataset_options], the page header, and the
    dashboard block on the key found. *)
Definition selected_view (argsort : list cell -> list nat)
  (data : option (dict ref)) (selection : string) : M unit :=
  selected_key <- getitem dataset_options selection ;;
  emit (StTitle "⚖️ FBI Crime Data Analysis Dashboard") ;;;
  emit (StMarkdown "Explore various aspects of FBI-reported crime data with interactive charts and tables.") ;;;
  emit StDivider ;;;
  dashboard argsort data selected_key.

(** * Properties *)

(** ** Reshape *)

Section MeltFacts.

Lemma zsum_app (l1 l2 : list Z) : zsum (l1 ++ l2) = (zsum l1 + zsum l2)%Z.
Proof.
  unfold zsum. induction l1 as [|x l1 IH]; simpl; [reflexivity|].
  rewrite IH. lia.
Qed.

Lemma zsum_map_add {A : Type} (f g : A -> Z) (l : list A) :
  zsum (map (fun x => (f x + g x)%Z) l) = (zsum (map f l) + zsum (map g l))%Z.
Proof.
  induction l as [|x l IH]; simpl; [reflexivity|].
  rewrite IH. lia.
Qed.

Lemma zsum_map_zero {A : Type} (l : list A) :
  zsum (map (fun _ => 0%Z) l) = 0%Z.
Proof. induction l as [|x l IH]; simpl; [reflexivity|]. exact IH. Qed.

Lemma series_sum_app (s1 s2 : list cell) :
  series_sum (s1 ++ s2) = (series_sum s1 + series_sum s2)%Z.
Proof. unfold series_sum. rewrite map_app. apply zsum_app. Qed.

Lemma series_sum_flat_map {A : Type} (f : A -> list cell) (l : list A) :
  series_sum (flat_map f l) = zsum (map (fun x => series_sum (f x)) l).
Proof.
  induction l as [|x l IH]; simpl; [reflexivity|].
  rewrite series_sum_app, IH. reflexivity.
Qed.

(** Summing column by column or row by row gives the same total. *)
Lemma sum_columns_rows (js : list nat) (rs : list (list cell)) :
  zsum (map (fun j => series_sum (map (cell_at j) rs)) js) =
  zsum (map (fun r => zsum (map (fun j => cell_num (cell_at j r)) js)) rs).
Proof.
  induction rs as [|r rs IH]; simpl.
  - apply zsum_map_zero.
  - rewrite <- IH.
    rewrite <- (zsum_map_add (fun j => cell_num (cell_at j r))
                             (fun j => series_sum (map (cell_at j) rs))).
    reflexivity.
Qed.

Lemma cells_of_row (r : list cell) :
  map (fun j => cell_at j r) (seq 0 (length r)) = r.
Proof.
  apply (nth_ext _ _ NaN NaN).
  - rewrite length_map, length_seq. reflexivity.
  - intros n Hn. rewrite length_map, length_seq in Hn.
    rewrite (nth_indep _ NaN (cell_at 0 r)) by (rewrite length_map, length_seq; exact Hn).
    rewrite (map_nth (fun j => cell_at j r)).
    rewrite seq_nth by exact Hn. reflexivity.
Qed.

Lemma row_sum_by_position (r : list cell) :
  zsum (map (fun j => cell_num (cell_at j r)) (seq 0 (length r))) = series_sum r.
Proof.
  unfold series_sum.
  rewrite <- (map_map (fun j => cell_at j r) cell_num), cells_of_row.
  reflexivity.
Qed.

(** The value column of the molten rows, whatever the labels are. *)
Lemma molten_values (rs : list (list cell)) (cs : list string) (k : nat) :
  map (cell_at 1)
      (flat_map (fun jc : nat * string =>
                   map (fun r => [Str (snd jc); cell_at (fst jc) r]) rs)
                (combine (seq k (length cs)) cs)) =
  flat_map (fun j => map (cell_at j) rs) (seq k (length cs)).
Proof.
  revert k. induction cs as [|c cs IH]; intro k; simpl; [reflexivity|].
  rewrite map_app, IH, map_map. reflexivity.
Qed.

Lemma molten_length (rs : list (list cell)) (cs : list string) (k : nat) :
  length (flat_map (fun jc : nat * string =>
                      map (fun r => [Str (snd jc); cell_at (fst jc) r]) rs)
                   (combine (seq k (length cs)) cs)) =
  length rs * length cs.
Proof.
  revert k. induction cs as [|c cs IH]; intro k; simpl; [lia|].
  rewrite length_app, length_map, IH. lia.
Qed.

(** One data row: the molten rows pair each label with its cell. *)
Lemma molten_single_row (cs : list string) (pre vs : list cell) :
  length vs = length cs ->
  flat_map (fun jc : nat * string =>
              map (fun r => [Str (snd jc); cell_at (fst jc) r]) [pre ++ vs])
           (combine (seq (length pre) (length cs)) cs) =
  map (fun cv => [Str (fst cv); snd cv]) (combine cs vs).
Proof.
  revert pre vs. induction cs as [|c cs IH]; intros pre vs Hlen; simpl.
  - reflexivity.
  - destruct vs as [|v vs]; [discriminate|]. simpl.
    unfold cell_at at 1. rewrite nth_middle. f_equal.
    specialize (IH (pre ++ [v]) vs).
    rewrite length_app in IH. simpl in IH.
    rewrite Nat.add_1_r in IH. rewrite <- app_assoc in IH. simpl in IH.
    apply IH. simpl in Hlen. lia.
Qed.

Lemma rectangular_row_sums (df : DataFrame) :
  rectangular df ->
  map (fun r => zsum (map (fun j => cell_num (cell_at j r))
                          (seq 0 (length (columns df))))) (rows df) =
  map series_sum (rows df).
Proof.
  unfold rectangular. intro H. induction H as [|r rs Hr _ IH]; simpl.
  - reflexivity.
  - rewrite IH, <- Hr, row_sum_by_position. reflexivity.
Qed.

(** [melt] on any number of rows: for every rectangular frame of r rows and
    c columns (none of them already labelled Count, which pandas refuses) it
    returns a frame with the two columns Category and Count and exactly r * c
    rows, and the sum of its Count column is the sum of all numeric cells of
    the input. *)
Lemma melt_rows_times_columns (df : DataFrame) :
  rectangular df ->
  has_column "Count" df = false ->
  exists long,
    melt df "Category" "Count" = Ok long /\
    columns long = ["Category"; "Count"] /\
    Forall (fun r => length r = 2) (rows long) /\
    length (rows long) = length (rows df) * length (columns df) /\
    column_sum long "Count" = cells_sum df.
Proof.
  intros Hrect Hcount. unfold melt. rewrite Hcount.
  eexists. split; [reflexivity|]. simpl.
  split; [reflexivity|].
  split.
  { apply Forall_forall. intros r Hr.
    apply in_flat_map in Hr. destruct Hr as [jc [_ Hr]].
    apply in_map_iff in Hr. destruct Hr as [r0 [<- _]]. reflexivity. }
  split.
  { unfold enumerate. apply molten_length. }
  unfold column_sum, get_column, cells_sum. simpl.
  unfold enumerate. rewrite molten_values.
  rewrite series_sum_flat_map, sum_columns_rows.
  rewrite rectangular_row_sums by exact Hrect. reflexivity.
Qed.

(** The long form of one wide row. *)
Lemma melt_one_row (cs : list string) (vs : list cell) :
  length vs = length cs ->
  existsb (String.eqb "Count") cs = false ->
  melt {| columns := cs; rows := [vs] |} "Category" "Count" =
  Ok {| columns := ["Category"; "Count"];
        rows := map (fun cv => [Str (fst cv); snd cv]) (combine cs vs) |}.
Proof.
  intros Hlen Hcount. unfold melt, has_column. cbn [columns rows].
  rewrite Hcount. do 2 f_equal. unfold enumerate.
  apply (molten_single_row cs [] vs Hlen).
Qed.

Lemma long_count_sum (cs : list string) (vs : list cell) :
  length vs = length cs ->
  column_sum {| columns := ["Category"; "Count"];
                rows := map (fun cv => [Str (fst cv); snd cv]) (combine cs vs) |}
             "Count" = series_sum vs.
Proof.
  intro Hlen. unfold column_sum, get_column. simpl.
  rewrite map_map. simpl. unfold series_sum. f_equal.
  revert vs Hlen. induction cs as [|c cs IH]; intros [|v vs] Hlen;
    simpl in *; try discriminate; try reflexivity.
  f_equal. apply IH. lia.
Qed.

(** C1.  For a sex table (a key that contains sex) whose file holds the
    columns c_1..c_n and one data row v_1..v_n, the loader stores under the
    key a new frame with the columns Category and Count and exactly n rows,
    row i being (c_i, v_i) in the original column order, and the sum of its
    Count column is the sum of the original cells. *)
Theorem reshape_single_row
  (base_dir : string) (fs : string -> outcome DataFrame)
  (data : dict ref) (key filename : string) (w : world)
  (cs : list string) (vs : list cell) :
  str_contains "sex" key = true ->
  fs (os_path_join base_dir filename) = Ok {| columns := cs; rows := [vs] |} ->
  length vs = length cs ->
  existsb (String.eqb "Count") cs = false ->
  exists long w',
    load_entry base_dir fs data key filename w =
      (Ok (Some (dict_set data key (S (length (heap w))))), w') /\
    nth_error (heap w') (S (length (heap w))) = Some long /\
    columns long = ["Category"; "Count"] /\
    length (rows long) = length cs /\
    (forall i, i < length cs ->
       nth i (rows long) [] = [Str (nth i cs ""); nth i vs NaN]) /\
    column_sum long "Count" = series_sum vs.
Proof.
  intros Hsex Hfs Hlen Hcount.
  eexists. eexists. split.
  { unfold load_entry, try_except_FileNotFoundError, bind, pd_read_csv.
    rewrite Hfs, Hsex. unfold df_melt, bind, alloc, deref, lift. simpl.
    rewrite nth_error_app2 by lia. rewrite Nat.sub_diag. simpl.
    rewrite (melt_one_row cs vs Hlen Hcount). simpl.
    rewrite length_app. simpl. rewrite Nat.add_1_r. reflexivity. }
  cbn [heap]. split.
  { rewrite nth_error_app2 by (rewrite length_app; simpl; lia).
    rewrite length_app. simpl. rewrite Nat.add_1_r, Nat.sub_diag. reflexivity. }
  cbn [columns rows]. split; [reflexivity|].
  split.
  { rewrite length_map, length_combine. lia. }
  split.
  { intros i Hi.
    rewrite (nth_indep _ [] ((fun cv : string * cell => [Str (fst cv); snd cv]) ("", NaN)))
      by (rewrite length_map, length_combine; lia).
    rewrite (map_nth (fun cv : string * cell => [Str (fst cv); snd cv])).
    rewrite combine_nth by lia. reflexivity. }
  apply long_count_sum. exact Hlen.
Qed.

Definition victim_sex_wide : DataFrame :=
  {| columns := ["Male"; "Female"; "Unknown"];
     rows := [[Num 600; Num 400; Num 10]] |}.

Lemma reshape_single_row_witness :
  exists long w',
    load_entry "/app" (fun _ => Ok victim_sex_wide) [] "victim_sex"
               "Victim sex_09-30-2025.csv" empty_world =
      (Ok (Some (dict_set [] "victim_sex" 1)), w') /\
    nth_error (heap w') 1 = Some long /\
    columns long = ["Category"; "Count"] /\
    length (rows long) = 3 /\
    (forall i, i < 3 ->
       nth i (rows long) [] =
       [Str (nth i ["Male"; "Female"; "Unknown"] "");
        nth i [Num 600; Num 400; Num 10] NaN]) /\
    column_sum long "Count" = 1010%Z.
Proof.
  exact (reshape_single_row "/app" (fun _ => Ok victim_sex_wide) []
           "victim_sex" "Victim sex_09-30-2025.csv" empty_world
           ["Male"; "Female"; "Unknown"] [Num 600; Num 400; Num 10]
           eq_refl eq_refl eq_refl eq_refl).
Defined.

Definition two_by_two : DataFrame :=
  {| columns := ["Male"; "Female"];
     rows := [[Num 1; Num 2]; [Num 3; NaN]] |}.

End MeltFacts.

(** ** Ranking *)

(** Descending order of counts with the missing value last. *)
Definition count_ge (a b : cell) : Prop :=
  match a, b with
  | _, NaN => True
  | Num x, Num y => (y <= x)%Z
  | _, _ => False
  end.

(** A count is a number or missing. *)
Definition is_count (c : cell) : bool := is_num c || isna c.

(** The column [y] exists and holds counts only. *)
Definition count_column (df : DataFrame) (y : string) : bool :=
  match get_column df y with
  | Ok k => forallb is_count k
  | Raise _ => false
  end.

Section ListFacts.

Context {A : Type}.

Lemma nth_positions (l : list A) (d : A) :
  map (fun i => nth i l d) (seq 0 (length l)) = l.
Proof.
  apply (nth_ext _ _ d d).
  - rewrite length_map, length_seq. reflexivity.
  - intros n Hn. rewrite length_map, length_seq in Hn.
    rewrite (nth_indep _ d ((fun i => nth i l d) 0))
      by (rewrite length_map, length_seq; exact Hn).
    rewrite (map_nth (fun i => nth i l d)).
    rewrite seq_nth by exact Hn. reflexivity.
Qed.



Lemma filter_split_perm (P : A -> bool) (l : list A) :
  Permutation (filter (fun x => negb (P x)) l ++ filter P l) l.
Proof.
  induction l as [|a l IH]; simpl; [constructor|].
  destruct (P a); simpl.
  - apply Permutation_sym, Permutation_cons_app, Permutation_sym, IH.
  - constructor. exact IH.
Qed.

Lemma StronglySorted_app (R : A -> A -> Prop) (l1 l2 : list A) :
  StronglySorted R l1 -> StronglySorted R l2 ->
  (forall a b, In a l1 -> In b l2 -> R a b) ->
  StronglySorted R (l1 ++ l2).
Proof.
  intros H1 H2 H12. induction H1 as [|a l1 Hs IH Ha]; simpl; [exact H2|].
  constructor.
  - apply IH. intros x y Hx Hy. apply H12; [right; exact Hx|exact Hy].
  - apply Forall_app. split; [exact Ha|].
    apply Forall_forall. intros b Hb. apply H12; [left; reflexivity|exact Hb].
Qed.

Lemma StronglySorted_rev (R : A -> A -> Prop) (l : list A) :
  StronglySorted R l -> StronglySorted (fun a b => R b a) (rev l).
Proof.
  intro H. induction H as [|a l Hs IH Ha]; simpl; [constructor|].
  apply StronglySorted_app.
  - exact IH.
  - repeat constructor.
  - intros x y Hx Hy. destruct Hy as [<-|[]].
    apply in_rev in Hx. rewrite Forall_forall in Ha. apply Ha, Hx.
Qed.

Lemma In_firstn (n : nat) (l : list A) (x : A) :
  In x (firstn n l) -> In x l.
Proof.
  intro H. rewrite <- (firstn_skipn n l). apply in_or_app. left. exact H.
Qed.

Lemma StronglySorted_firstn (R : A -> A -> Prop) (n : nat) (l : list A) :
  StronglySorted R l -> StronglySorted R (firstn n l).
Proof.
  intro H. revert n. induction H as [|a l Hs IH Ha]; intro n.
  - rewrite firstn_nil. constructor.
  - destruct n as [|n]; simpl; [constructor|].
    constructor; [apply IH|].
    rewrite Forall_forall in *. intros x Hx.
    apply Ha. apply (In_firstn n l x Hx).
Qed.

(** In a strongly sorted list every earlier element is related to every later
    one. *)
Lemma StronglySorted_nth (R : A -> A -> Prop) (d : A) (l : list A) :
  StronglySorted R l ->
  forall i k, i < k -> k < length l -> R (nth i l d) (nth k l d).
Proof.
  intro H. induction H as [|a l Hs IH Ha]; intros i k Hik Hk; simpl in Hk; [lia|].
  destruct k as [|k]; [lia|]. destruct i as [|i]; simpl.
  - rewrite Forall_forall in Ha. apply Ha, nth_In. lia.
  - apply IH; lia.
Qed.

End ListFacts.

Lemma StronglySorted_map {A B : Type} (R : B -> B -> Prop) (f : A -> B)
  (l : list A) :
  StronglySorted (fun a b => R (f a) (f b)) l -> StronglySorted R (map f l).
Proof.
  intro H. induction H as [|a l Hs IH Ha]; simpl; constructor.
  - exact IH.
  - rewrite Forall_forall in *. intros y Hy.
    apply in_map_iff in Hy. destruct Hy as [x [<- Hx]]. apply Ha, Hx.
Qed.

(** Positions of the present and of the missing values of a column. *)
Definition present_idx (items : list cell) : list nat :=
  filter (fun i => negb (isna (cell_at i items))) (seq 0 (length items)).

Definition missing_idx (items : list cell) : list nat :=
  filter (fun i => isna (cell_at i items)) (seq 0 (length items)).

Lemma present_missing_perm (items : list cell) :
  Permutation (present_idx items ++ missing_idx items) (seq 0 (length items)).
Proof.
  unfold present_idx, missing_idx.
  apply (filter_split_perm (fun i => isna (cell_at i items))).
Qed.

Lemma present_idx_lt (items : list cell) (i : nat) :
  In i (present_idx items) -> i < length items /\ isna (cell_at i items) = false.
Proof.
  unfold present_idx. intro H. apply filter_In in H. destruct H as [H1 H2].
  apply in_seq in H1. split; [lia|].
  destruct (isna (cell_at i items)); [discriminate|reflexivity].
Qed.

Lemma missing_idx_nan (items : list cell) (i : nat) :
  In i (missing_idx items) -> cell_at i items = NaN.
Proof.
  unfold missing_idx. intro H. apply filter_In in H. destruct H as [_ H].
  destruct (cell_at i items); try discriminate. reflexivity.
Qed.

Lemma count_present_is_num (items : list cell) (i : nat) :
  forallb is_count items = true ->
  In i (present_idx items) -> is_num (cell_at i items) = true.
Proof.
  intros Hall Hi. apply present_idx_lt in Hi. destruct Hi as [Hlt Hna].
  rewrite forallb_forall in Hall.
  specialize (Hall (cell_at i items) (nth_In _ _ Hlt)).
  unfold is_count in Hall. rewrite Hna, orb_false_r in Hall. exact Hall.
Qed.

(** *** The two insertion sorts meet the argsort contract *)

Section InsertionArgsort.

Variable key : nat -> Z.
Variable before : nat -> nat -> bool.
Hypothesis before_le : forall i j, before i j = true -> (key i <= key j)%Z.
Hypothesis not_before_le : forall i j, before i j = false -> (key j <= key i)%Z.

Lemma insert_by_perm (i : nat) (l : list nat) :
  Permutation (insert_by before i l) (i :: l).
Proof.
  induction l as [|j l IH]; simpl; [reflexivity|].
  destruct (before i j); [reflexivity|].
  rewrite IH. apply perm_swap.
Qed.

Lemma insert_by_sorted (i : nat) (l : list nat) :
  Sorted (fun a b => (key a <= key b)%Z) l ->
  Sorted (fun a b => (key a <= key b)%Z) (insert_by before i l).
Proof.
  intro H. induction H as [|j l Hs IH Hhd]; simpl.
  - repeat constructor.
  - destruct (before i j) eqn:Hb.
    + constructor; [constructor; assumption|].
      constructor. apply before_le, Hb.
    + constructor; [exact IH|].
      destruct l as [|k l]; simpl.
      * constructor. apply not_before_le, Hb.
      * destruct (before i k); constructor.
        -- apply not_before_le, Hb.
        -- inversion Hhd. assumption.
Qed.

Lemma fold_insert_perm (l acc : list nat) :
  Permutation (fold_left (fun acc i => insert_by before i acc) l acc) (acc ++ l).
Proof.
  revert acc. induction l as [|i l IH]; intro acc; simpl.
  - rewrite app_nil_r. reflexivity.
  - rewrite IH. rewrite insert_by_perm. simpl. apply Permutation_middle.
Qed.

Lemma fold_insert_sorted (l acc : list nat) :
  Sorted (fun a b => (key a <= key b)%Z) acc ->
  Sorted (fun a b => (key a <= key b)%Z)
         (fold_left (fun acc i => insert_by before i acc) l acc).
Proof.
  revert acc. induction l as [|i l IH]; intros acc H; simpl; [exact H|].
  apply IH, insert_by_sorted, H.
Qed.

End InsertionArgsort.

Lemma Sorted_map {A B : Type} (R : B -> B -> Prop) (f : A -> B) (l : list A) :
  Sorted (fun a b => R (f a) (f b)) l -> Sorted R (map f l).
Proof.
  intro H. induction H as [|a l Hs IH Hhd]; simpl; constructor.
  - exact IH.
  - destruct Hhd; simpl; constructor. assumption.
Qed.

Lemma insertion_argsort_sorts (before : list cell -> nat -> nat -> bool) :
  (forall a i j, before a i j = true ->
     (cell_num (cell_at i a) <= cell_num (cell_at j a))%Z) ->
  (forall a i j, before a i j = false ->
     (cell_num (cell_at j a) <= cell_num (cell_at i a))%Z) ->
  argsort_sorts (insertion_argsort before).
Proof.
  intros H1 H2 a. unfold insertion_argsort. split.
  - apply (fold_insert_perm (before a) (seq 0 (length a)) []).
  - intros _. apply Sorted_map.
    apply (fold_insert_sorted (fun i => cell_num (cell_at i a)) (before a)
             (H1 a) (H2 a)).
    constructor.
Qed.

Lemma argsort_stable_sorts : argsort_sorts argsort_stable.
Proof.
  apply insertion_argsort_sorts; intros a i j H.
  - apply Z.ltb_lt in H. lia.
  - apply Z.ltb_ge in H. exact H.
Qed.


(** The cell of row [i] in column [j], read from the column or from the row. *)
Lemma column_cell (j i : nat) (rs : list (list cell)) :
  cell_at i (map (cell_at j) rs) = cell_at j (nth i rs []).
Proof.
  assert (Hd : cell_at j [] = NaN) by (destruct j; reflexivity).
  unfold cell_at at 1. rewrite <- Hd. apply (map_nth (cell_at j)).
Qed.

Section Ranking.

Variable argsort : list cell -> list nat.
Hypothesis argsort_ok : argsort_sorts argsort.

(** The indexer [nargsort] computes for a descending sort of a column of
    counts: the present positions by descending value, then the missing
    positions in their original order. *)
Lemma nargsort_descending (items : list cell) :
  forallb is_count items = true ->
  exists ix,
    nargsort argsort items false = Ok (ix ++ missing_idx items) /\
    Permutation ix (present_idx items) /\
    StronglySorted
      (fun i k => (cell_num (cell_at k items) <= cell_num (cell_at i items))%Z) ix.
Proof.
  intro Hall. unfold nargsort.
  fold (present_idx items). fold (missing_idx items).
  set (nn := rev (present_idx items)).
  set (vals := rev (map (fun i => cell_at i items) (present_idx items))).
  assert (Hvals : vals = map (fun i => cell_at i items) nn).
  { unfold vals, nn. rewrite map_rev. reflexivity. }
  assert (Hnum : forallb is_num vals = true).
  { apply forallb_forall. intros c Hc. rewrite Hvals in Hc.
    apply in_map_iff in Hc. destruct Hc as [i [<- Hi]].
    apply count_present_is_num; [exact Hall|].
    unfold nn in Hi. apply in_rev in Hi. exact Hi. }
  destruct (argsort_ok vals) as [Hperm Hsorted].
  specialize (Hsorted Hnum).
  assert (Hmixed : mixed vals = false).
  { unfold mixed. apply andb_false_intro2.
    clear - Hnum. induction vals as [|c l IH]; [reflexivity|].
    simpl in *. apply andb_prop in Hnum. destruct Hnum as [Hc Hl].
    rewrite (IH Hl). destruct c; try discriminate Hc. reflexivity. }
  rewrite Hmixed.
  assert (Hlen : length vals = length nn).
  { rewrite Hvals, length_map. reflexivity. }
  assert (Hin : forall p, In p (argsort vals) -> p < length nn).
  { intros p Hp. apply (Permutation_in _ Hperm) in Hp.
    apply in_seq in Hp. lia. }
  unfold fancy_index.
  replace (forallb (fun p => Nat.ltb p (length nn)) (argsort vals)) with true.
  2:{ symmetry. apply forallb_forall. intros p Hp.
      apply Nat.ltb_lt, Hin, Hp. }
  eexists. split; [reflexivity|]. split.
  - rewrite <- Permutation_rev.
    transitivity (map (fun p => nth p nn 0) (seq 0 (length nn))).
    + apply Permutation_map. rewrite <- Hlen. exact Hperm.
    + rewrite nth_positions. unfold nn. symmetry. apply Permutation_rev.
  - apply (StronglySorted_rev
             (fun i k => (cell_num (cell_at i items) <= cell_num (cell_at k items))%Z)).
    apply Sorted_StronglySorted in Hsorted.
    2:{ intros x y z. apply Z.le_trans. }
    assert (Hkeys : forall l, (forall p, In p l -> p < length nn) ->
              StronglySorted Z.le (map (fun i => cell_num (cell_at i vals)) l) ->
              StronglySorted
                (fun i k => (cell_num (cell_at i items) <= cell_num (cell_at k items))%Z)
                (map (fun p => nth p nn 0) l)).
    { induction l as [|p l IH]; intros Hl Hs; simpl; [constructor|].
      inversion Hs as [|? ? Hs' Hhd]; subst.
      assert (Hkey : forall q, q < length nn ->
                cell_at q vals = cell_at (nth q nn 0) items).
      { intros q Hq. rewrite Hvals. unfold cell_at at 1.
        rewrite (nth_indep _ NaN ((fun i => cell_at i items) 0))
          by (rewrite length_map; exact Hq).
        rewrite (map_nth (fun i => cell_at i items)). reflexivity. }
      constructor.
      - apply IH; [intros q Hq; apply Hl; right; exact Hq|exact Hs'].
      - rewrite Forall_forall in *. intros k Hk.
        apply in_map_iff in Hk. destruct Hk as [q [<- Hq]].
        rewrite <- !Hkey by (apply Hl; simpl; auto).
        apply Hhd. apply in_map_iff. exists q. split; [reflexivity|exact Hq]. }
    apply Hkeys; [exact Hin|exact Hsorted].
Qed.

(** The frame [sort_values] returns for a descending sort on a column of
    counts, given by the indexer it takes the rows with. *)
Lemma sort_values_descending (df : DataFrame) (y : string) (items : list cell) :
  get_column df y = Ok items ->
  forallb is_count items = true ->
  exists ix,
    sort_values argsort df y false =
      Ok {| columns := columns df;
            rows := map (fun i => nth i (rows df) []) (ix ++ missing_idx items) |} /\
    Permutation (ix ++ missing_idx items) (seq 0 (length (rows df))) /\
    (forall i, In i ix -> is_num (cell_at i items) = true) /\
    StronglySorted count_ge (map (fun i => cell_at i items) (ix ++ missing_idx items)) /\
    get_column {| columns := columns df;
                  rows := map (fun i => nth i (rows df) []) (ix ++ missing_idx items) |} y =
      Ok (map (fun i => cell_at i items) (ix ++ missing_idx items)).
Proof.
  intros Hcol Hall.
  destruct (nargsort_descending items Hall) as [ix [Hnarg [Hperm Hsorted]]].
  assert (Hj : exists j, col_index y (columns df) = Some j /\
                         items = map (cell_at j) (rows df)).
  { unfold get_column in Hcol. destruct (col_index y (columns df)) as [j|].
    - exists j. split; [reflexivity|]. inversion Hcol. reflexivity.
    - discriminate. }
  destruct Hj as [j [Hj Hitems]].
  assert (Hlen : length items = length (rows df)).
  { rewrite Hitems, length_map. reflexivity. }
  assert (Hfull : Permutation (ix ++ missing_idx items) (seq 0 (length (rows df)))).
  { rewrite <- Hlen. rewrite <- (present_missing_perm items).
    apply Permutation_app_tail. exact Hperm. }
  assert (Hnum : forall i, In i ix -> is_num (cell_at i items) = true).
  { intros i Hi. apply count_present_is_num; [exact Hall|].
    apply (Permutation_in _ Hperm). exact Hi. }
  exists ix. split.
  { unfold sort_values. rewrite Hcol, Hnarg. unfold take.
    replace (forallb (fun i => Nat.ltb i (length (rows df))) (ix ++ missing_idx items))
      with true; [reflexivity|].
    symmetry. apply forallb_forall. intros i Hi.
    apply (Permutation_in _ Hfull) in Hi. apply in_seq in Hi.
    apply Nat.ltb_lt. lia. }
  split; [exact Hfull|]. split; [exact Hnum|]. split.
  { rewrite map_app. apply StronglySorted_app.
    - apply StronglySorted_map.
      clear Hperm Hnarg Hfull.
      induction Hsorted as [|i l Hs IH Hhd]; constructor.
      + apply IH. intros k Hk. apply Hnum. right. exact Hk.
      + rewrite Forall_forall in *. intros k Hk.
        specialize (Hhd k Hk).
        pose proof (Hnum i (or_introl eq_refl)) as Hi.
        pose proof (Hnum k (or_intror Hk)) as Hk'.
        destruct (cell_at i items); try discriminate.
        destruct (cell_at k items); try discriminate.
        exact Hhd.
    - apply StronglySorted_map.
      assert (Hm : forall l, (forall k, In k l -> cell_at k items = NaN) ->
                StronglySorted
                  (fun a b => count_ge (cell_at a items) (cell_at b items)) l).
      { induction l as [|i l IH]; intro Hnan; constructor.
        - apply IH. intros k Hk. apply Hnan. right. exact Hk.
        - apply Forall_forall. intros k Hk.
          rewrite (Hnan k (or_intror Hk)). destruct (cell_at i items); exact I. }
      apply Hm, missing_idx_nan.
    - intros a b _ Hb. apply in_map_iff in Hb. destruct Hb as [k [<- Hk]].
      rewrite (missing_idx_nan items k Hk). destruct a; exact I. }
  unfold get_column. cbn [columns rows]. rewrite Hj. f_equal.
  rewrite map_map. apply map_ext. intro i. rewrite Hitems.
  symmetry. apply column_cell.
Qed.

Lemma count_column_items (df : DataFrame) (y : string) :
  count_column df y = true ->
  exists items, get_column df y = Ok items /\ forallb is_count items = true.
Proof.
  unfold count_column. destruct (get_column df y) as [items|e]; [|discriminate].
  intro H. exists items. split; [reflexivity|exact H].
Qed.

Lemma get_column_head (df : DataFrame) (y : string) (n : nat) (cs : list cell) :
  get_column df y = Ok cs -> get_column (head df n) y = Ok (firstn n cs).
Proof.
  unfold get_column, head. cbn [columns rows].
  destruct (col_index y (columns df)); [|discriminate].
  intro H. inversion H. rewrite firstn_map. reflexivity.
Qed.

(** Sorting by descending count and keeping the first 20: min(m, 20) rows,
    each count at least the next (a missing count being below every number),
    the columns of the input, and rows that are the first 20 of a
    rearrangement of the input rows. *)
Lemma ranked_bar_rows (df : DataFrame) (y : string) :
  count_column df y = true ->
  exists sorted,
    sort_values argsort df y false = Ok sorted /\
    length (rows (head sorted 20)) = Nat.min (length (rows df)) 20 /\
    columns (head sorted 20) = columns df /\
    (exists p, Permutation p (rows df) /\ rows (head sorted 20) = firstn 20 p) /\
    exists counts,
      get_column (head sorted 20) y = Ok counts /\
      forall i, S i < length counts ->
        count_ge (nth i counts NaN) (nth (S i) counts NaN).
Proof.
  intro Hc. destruct (count_column_items df y Hc) as [items [Hcol Hall]].
  destruct (sort_values_descending df y items Hcol Hall)
    as [ix [Hsort [Hperm [_ [Hsorted Hget]]]]].
  eexists. split; [exact Hsort|].
  cbn [head rows columns]. split.
  { rewrite length_firstn, length_map, (Permutation_length Hperm), length_seq.
    apply Nat.min_comm. }
  split; [reflexivity|]. split.
  { eexists. split; [|reflexivity].
    transitivity (map (fun i => nth i (rows df) []) (seq 0 (length (rows df)))).
    - apply Permutation_map. exact Hperm.
    - rewrite nth_positions. reflexivity. }
  eexists. split.
  { apply (get_column_head _ y 20 _ Hget). }
  intros i Hi.
  apply (StronglySorted_nth count_ge NaN); [|lia|exact Hi].
  apply StronglySorted_firstn. exact Hsorted.
Qed.




End Ranking.

(** A weapon-type table of 25 rows, with ties and two missing counts. *)
Definition weapon_table : DataFrame :=
  {| columns := ["key"; "value"];
     rows :=
       [ [Str "Knife"; Num 200]; [Str "Firearm"; Num 500];
         [Str "Blunt Object"; Num 150]; [Str "Personal Weapons"; Num 140];
         [Str "Handgun"; Num 130]; [Str "Rifle"; Num 40];
         [Str "Shotgun"; Num 35]; [Str "Other Firearm"; Num 30];
         [Str "Motor Vehicle"; Num 120]; [Str "Poison"; Num 2];
         [Str "Explosives"; Num 1]; [Str "Fire"; Num 9];
         [Str "Drugs"; Num 8]; [Str "Asphyxiation"; Num 7];
         [Str "Other"; Num 90]; [Str "Unknown"; NaN];
         [Str "None"; Num 60]; [Str "Pushed"; Num 3];
         [Str "Strangulation"; Num 7]; [Str "Drowning"; Num 1];
         [Str "Lethal Cutting Instrument"; Num 50]; [Str "Club"; Num 45];
         [Str "Automatic Firearm"; Num 4]; [Str "Not Reported"; NaN];
         [Str "Pepper Spray"; Num 6] ] |}.

(** The top 20 of the weapon table under the stable argsort. *)
Example weapon_top20 :
  match sort_values argsort_stable weapon_table "value" false with
  | Ok sorted =>
      length (rows (head sorted 20)) = 20 /\
      nth 0 (rows (head sorted 20)) [] = [Str "Firearm"; Num 500] /\
      nth 19 (rows (head sorted 20)) [] = [Str "Pushed"; Num 3] /\
      ~ In [Str "Poison"; Num 2] (rows (head sorted 20))
  | Raise _ => False
  end.
Proof.
  vm_compute. repeat split.
  intro H. repeat (destruct H as [H|H]; [discriminate H|]). exact H.
Qed.

(** A short table with missing counts between the numbers. *)
Definition gaps_table : DataFrame :=
  {| columns := ["key"; "value"];
     rows := [ [Str "a"; NaN]; [Str "b"; Num 5]; [Str "c"; NaN];
               [Str "d"; Num 9]; [Str "e"; Num 5] ] |}.

Example gaps_sorted :
  sort_values argsort_stable gaps_table "value" false =
  Ok {| columns := ["key"; "value"];
        rows := [ [Str "d"; Num 9]; [Str "b"; Num 5]; [Str "e"; Num 5];
                  [Str "a"; NaN]; [Str "c"; NaN] ] |}.
Proof. reflexivity. Qed.

(** A column that read as text: nothing in it is a number. *)
Definition text_counts_table : DataFrame :=
  {| columns := ["key"; "value"];
     rows := [ [Str "a"; Str "500"]; [Str "b"; NaN]; [Str "c"; Str "unknown"] ] |}.

Example text_counts_sorted :
  match sort_values argsort_stable text_counts_table "value" false with
  | Ok sorted => nth 2 (rows sorted) [] = [Str "b"; NaN]
  | Raise _ => False
  end.
Proof. reflexivity. Qed.

(** A number among texts: the sort raises. *)
Example mixed_counts_raise :
  sort_values argsort_stable
    {| columns := ["key"; "value"];
       rows := [ [Str "a"; Num 500]; [Str "b"; Str "unknown"] ] |}
    "value" false = Raise TypeError.
Proof. reflexivity. Qed.

(** *** Ties *)

(** Two rows with the same count. *)
Definition tie_table : DataFrame :=
  {| columns := ["key"; "value"];
     rows := [ [Str "Residence"; Num 7]; [Str "Highway"; Num 7] ] |}.

(** With the stable argsort the same table keeps its order. *)
Example ranking_tie_kept :
  sort_values argsort_stable tie_table "value" false = Ok tie_table.
Proof. reflexivity. Qed.





(** ** The world only grows *)

(** Every frame object of [w] is still there, unchanged, in [w']. *)
Definition heap_extends (w w' : world) : Prop :=
  exists new, heap w' = heap w ++ new.

Lemma heap_extends_refl (w : world) : heap_extends w w.
Proof. exists []. rewrite app_nil_r. reflexivity. Qed.

Lemma heap_extends_trans (w1 w2 w3 : world) :
  heap_extends w1 w2 -> heap_extends w2 w3 -> heap_extends w1 w3.
Proof.
  intros [l1 H1] [l2 H2]. exists (l1 ++ l2).
  rewrite H2, H1, app_assoc. reflexivity.
Qed.

Lemma heap_extends_lookup (w w' : world) (r : ref) (df : DataFrame) :
  heap_extends w w' ->
  nth_error (heap w) r = Some df -> nth_error (heap w') r = Some df.
Proof.
  intros [l H] Hr. rewrite H. rewrite nth_error_app1; [exact Hr|].
  apply nth_error_Some. rewrite Hr. discriminate.
Qed.

(** ** Dictionaries *)

Lemma dict_get_set {V : Type} (d : dict V) (k k' : string) (v : V) :
  dict_get (dict_set d k v) k' =
  if String.eqb k' k then Some v else dict_get d k'.
Proof.
  induction d as [|[k0 v0] d IH]; simpl.
  - reflexivity.
  - destruct (String.eqb k k0) eqn:Hk; simpl.
    + apply String.eqb_eq in Hk. subst k0.
      destruct (String.eqb k' k); reflexivity.
    + destruct (String.eqb k' k0) eqn:Hk0.
      * apply String.eqb_eq in Hk0. subst k0.
        rewrite String.eqb_sym, Hk. reflexivity.
      * exact IH.
Qed.

(** ** Loading *)

Lemma melt_raises (df : DataFrame) (v n : string) (e : exn) :
  melt df v n = Raise e -> is_FileNotFoundError e = false.
Proof.
  unfold melt. destruct (has_column n df); intro H; inversion H. reflexivity.
Qed.

Section Loader.

Variable base_dir : string.
Variable fs : string -> outcome DataFrame.

Let path (filename : string) : string := os_path_join base_dir filename.

(** What the loader stores for a key: the frame read, melted for a sex key. *)
Definition stored (key : string) (df : DataFrame) : outcome DataFrame :=
  if str_contains "sex" key then melt df "Category" "Count" else Ok df.

(** The file of the entry is there and the loader can store it. *)
Definition loadable (entry : string * string) : Prop :=
  exists df st, fs (path (snd entry)) = Ok df /\ stored (fst entry) df = Ok st.

Lemma load_entry_missing (data : dict ref) (key filename p : string) (w : world) :
  fs (path filename) = Raise (FileNotFoundError p) ->
  load_entry base_dir fs data key filename w =
  (Ok None,
   {| heap := heap w;
      opened := opened w ++ [path filename];
      ui := ui w ++ [StError (String.append "❌ File not found: " filename)] |}).
Proof.
  intro H. unfold load_entry, try_except_FileNotFoundError, bind, pd_read_csv.
  fold (path filename). rewrite H. reflexivity.
Qed.

Lemma load_entry_unreadable (data : dict ref) (key filename : string) (e : exn)
  (w : world) :
  fs (path filename) = Raise e ->
  is_FileNotFoundError e = false ->
  load_entry base_dir fs data key filename w =
  (Raise e,
   {| heap := heap w; opened := opened w ++ [path filename]; ui := ui w |}).
Proof.
  intros H He. unfold load_entry, try_except_FileNotFoundError, bind, pd_read_csv.
  fold (path filename). rewrite H. destruct e; try discriminate; reflexivity.
Qed.

Lemma load_entry_stored (data : dict ref) (key filename : string)
  (df st : DataFrame) (w : world) :
  fs (path filename) = Ok df ->
  stored key df = Ok st ->
  exists r w',
    load_entry base_dir fs data key filename w =
      (Ok (Some (dict_set data key r)), w') /\
    nth_error (heap w') r = Some st /\
    heap_extends w w' /\
    opened w' = opened w ++ [path filename] /\
    ui w' = ui w.
Proof.
  intros H Hst. unfold stored in Hst.
  unfold load_entry, try_except_FileNotFoundError, bind, pd_read_csv.
  fold (path filename). rewrite H.
  destruct (str_contains "sex" key).
  - unfold df_melt, bind, alloc, deref, lift. cbn [heap opened ui].
    rewrite nth_error_app2 by lia. rewrite Nat.sub_diag. cbn [nth_error].
    rewrite Hst. cbn [heap opened ui].
    eexists. eexists. split; [reflexivity|]. cbn [heap opened ui].
    split.
    { rewrite nth_error_app2 by lia. rewrite Nat.sub_diag. reflexivity. }
    split.
    { exists [df; st]. rewrite <- app_assoc. reflexivity. }
    split; reflexivity.
  - inversion Hst; subst st. unfold ret, alloc. cbn [heap opened ui].
    eexists. eexists. split; [reflexivity|]. cbn [heap opened ui].
    split.
    { rewrite nth_error_app2 by lia. rewrite Nat.sub_diag. reflexivity. }
    split.
    { exists [df]. reflexivity. }
    split; reflexivity.
Qed.

(** An entry the loader gets past was loadable. *)
Lemma load_entry_some (data data' : dict ref) (key filename : string)
  (w w' : world) :
  load_entry base_dir fs data key filename w = (Ok (Some data'), w') ->
  loadable (key, filename).
Proof.
  intro H. unfold loadable. cbn [fst snd].
  destruct (fs (path filename)) as [df|e] eqn:Hfs.
  - destruct (stored key df) as [st|e] eqn:Hst.
    + exists df, st. split; [reflexivity|exact Hst].
    + exfalso. revert H.
      unfold load_entry, try_except_FileNotFoundError, bind, pd_read_csv.
      fold (path filename). rewrite Hfs. unfold stored in Hst.
      destruct (str_contains "sex" key); [|discriminate].
      unfold df_melt, bind, alloc, deref, lift. cbn [heap opened ui].
      rewrite nth_error_app2 by lia. rewrite Nat.sub_diag. cbn [nth_error].
      rewrite Hst. pose proof (melt_raises _ _ _ _ Hst) as He.
      destruct e; try discriminate He; discriminate.
  - exfalso. destruct (is_FileNotFoundError e) eqn:He.
    + destruct e; try discriminate He.
      rewrite (load_entry_missing data key filename _ w Hfs) in H. discriminate.
    + rewrite (load_entry_unreadable data key filename e w Hfs He) in H.
      discriminate.
Qed.

Lemma load_loop_app (pre post : dict string) (data : dict ref) (w : world) :
  load_loop base_dir fs (pre ++ post) data w =
  match load_loop base_dir fs pre data w with
  | (Ok (Some data1), w1) => load_loop base_dir fs post data1 w1
  | r => r
  end.
Proof.
  revert data w. induction pre as [|[key filename] pre IH]; intros data w.
  - reflexivity.
  - cbn [app load_loop]. unfold bind.
    destruct (load_entry base_dir fs data key filename w) as [[[data1|]|e] w1].
    + apply IH.
    + reflexivity.
    + reflexivity.
Qed.

(** Entries the loader gets past were all loadable. *)
Lemma load_loop_some (items : dict string) (data data' : dict ref) (w w' : world) :
  load_loop base_dir fs items data w = (Ok (Some data'), w') ->
  Forall loadable items.
Proof.
  revert data w. induction items as [|[key filename] items IH]; intros data w H.
  - constructor.
  - cbn [load_loop] in H. unfold bind in H.
    destruct (load_entry base_dir fs data key filename w)
      as [[[data1|]|e] w1] eqn:He; try discriminate H.
    constructor.
    + apply (load_entry_some _ _ _ _ _ _ He).
    + apply (IH _ _ H).
Qed.

(** Loadable entries are all loaded, in order, and nothing else changes. *)
Lemma load_loop_loadable (items : dict string) :
  Forall loadable items ->
  forall (data : dict ref) (w : world),
  exists data' w',
    load_loop base_dir fs items data w = (Ok (Some data'), w') /\
    heap_extends w w' /\
    opened w' = opened w ++ map path (map snd items) /\
    ui w' = ui w /\
    (forall k, ~ In k (map fst items) -> dict_get data' k = dict_get data k) /\
    (NoDup (map fst items) ->
     forall key filename, In (key, filename) items ->
       exists r df st,
         dict_get data' key = Some r /\
         fs (path filename) = Ok df /\
         stored key df = Ok st /\
         nth_error (heap w') r = Some st).
Proof.
  intro Hall. induction Hall as [|[key filename] items Hl _ IH]; intros data w.
  - exists data, w. split; [reflexivity|].
    split; [apply heap_extends_refl|].
    split; [cbn; rewrite app_nil_r; reflexivity|].
    split; [reflexivity|].
    split; [reflexivity|].
    intros _ k f [].
  - destruct Hl as [df [st [Hfs Hst]]]. cbn [fst snd] in Hfs, Hst.
    destruct (load_entry_stored data key filename df st w Hfs Hst)
      as [r [w1 [He [Hr [Hext1 [Hop1 Hui1]]]]]].
    destruct (IH (dict_set data key r) w1)
      as [data' [w' [Hloop [Hext [Hop [Hui [Hkeep Hcontent]]]]]]].
    exists data', w'. split.
    { cbn [load_loop]. unfold bind. rewrite He. exact Hloop. }
    split; [apply (heap_extends_trans _ _ _ Hext1 Hext)|].
    split.
    { rewrite Hop, Hop1. cbn [map snd]. rewrite <- app_assoc. reflexivity. }
    split; [rewrite Hui, Hui1; reflexivity|].
    split.
    { intros k Hk. cbn [map fst] in Hk.
      rewrite Hkeep by (intro Hin; apply Hk; right; exact Hin).
      rewrite dict_get_set.
      destruct (String.eqb k key) eqn:Hkk; [|reflexivity].
      apply String.eqb_eq in Hkk. subst k. exfalso. apply Hk. left. reflexivity. }
    intros Hnd k f Hin. cbn [map fst] in Hnd. inversion Hnd as [|? ? Hnot Hnd']; subst.
    destruct Hin as [Heq|Hin].
    + inversion Heq; subst k f.
      exists r, df, st. split.
      { rewrite (Hkeep key Hnot), dict_get_set, String.eqb_refl. reflexivity. }
      split; [exact Hfs|]. split; [exact Hst|].
      apply (heap_extends_lookup _ _ _ _ Hext Hr).
    + apply (Hcontent Hnd' k f Hin).
Qed.

End Loader.

(** A file system given by a table of paths; any other path does not exist. *)
Definition fs_of (table : dict (outcome DataFrame)) (filepath : string)
  : outcome DataFrame :=
  match dict_get table filepath with
  | Some o => o
  | None => Raise (FileNotFoundError filepath)
  end.

Definition key_value (pairs : list (string * cell)) : DataFrame :=
  {| columns := ["key"; "value"];
     rows := map (fun kv => [Str (fst kv); snd kv]) pairs |}.

(** A directory [/app] with the ten files. *)
Definition demo_dir : dict (outcome DataFrame) :=
  [ ("/app/Offense Linked to Another Offense_09-30-2025.csv",
     Ok (key_value [("Robbery", Num 12); ("Burglary", Num 30); ("Arson", Num 2)]));
    ("/app/Type of Weapon Involved by Offense_09-30-2025.csv", Ok weapon_table);
    ("/app/Victim's Relationship to Offender_09-30-2025.csv",
     Ok (key_value [("Stranger", Num 80); ("Acquaintance", Num 95)]));
    ("/app/Location Type_09-30-2025.csv",
     Ok (key_value [("Residence", Num 7); ("Highway", Num 7); ("Bar", NaN)]));
    ("/app/Victim ethnicity_09-30-2025.csv",
     Ok (key_value [("Hispanic or Latino", Num 20); ("Not Hispanic or Latino", Num 70)]));
    ("/app/Offender ethnicity_09-30-2025.csv",
     Ok (key_value [("Hispanic or Latino", Num 15); ("Not Hispanic or Latino", Num 60)]));
    ("/app/Victim race_09-30-2025.csv",
     Ok (key_value [("White", Num 50); ("Black or African American", Num 40);
                    ("Asian", Num 5)]));
    ("/app/Offender race_09-30-2025.csv",
     Ok (key_value [("White", Num 45); ("Black or African American", Num 42);
                    ("Unknown", Num 9)]));
    ("/app/Victim sex_09-30-2025.csv", Ok victim_sex_wide);
    ("/app/Offender sex_09-30-2025.csv",
     Ok {| columns := ["Male"; "Female"; "Unknown"];
           rows := [[Num 700; Num 200; Num 30]] |}) ].

Definition demo_fs : string -> outcome DataFrame := fs_of demo_dir.

(** The same directory with one file replaced by what reading it does. *)
Definition demo_fs_with (filepath : string) (o : outcome DataFrame)
  : string -> outcome DataFrame :=
  fs_of (dict_set demo_dir filepath o).

(** All ten files present: a dictionary with the ten keys, twelve frame
    objects (the two sex tables are read and then melted), no message. *)
Example load_demo :
  exists w',
    load_data "/app" demo_fs empty_world =
      (Ok (Some [ ("offense_linked", 0); ("weapon_type", 1);
                  ("victim_relationship", 2); ("location_type", 3);
                  ("victim_ethnicity", 4); ("offender_ethnicity", 5);
                  ("victim_race", 6); ("offender_race", 7);
                  ("victim_sex", 9); ("offender_sex", 11) ]), w') /\
    length (heap w') = 12 /\
    ui w' = [] /\
    nth_error (heap w') 9 =
      Some {| columns := ["Category"; "Count"];
              rows := [ [Str "Male"; Num 600]; [Str "Female"; Num 400];
                        [Str "Unknown"; Num 10] ] |}.
Proof. eexists. vm_compute. repeat split. Qed.

(** The fourth file does not exist: [None], one message, and the six files
    after it are never opened. *)
Example load_demo_missing :
  load_data "/app"
    (demo_fs_with "/app/Location Type_09-30-2025.csv"
       (Raise (FileNotFoundError "/app/Location Type_09-30-2025.csv")))
    empty_world =
  (Ok None,
   {| heap := [ key_value [("Robbery", Num 12); ("Burglary", Num 30); ("Arson", Num 2)];
                weapon_table;
                key_value [("Stranger", Num 80); ("Acquaintance", Num 95)] ];
      opened := [ "/app/Offense Linked to Another Offense_09-30-2025.csv";
                  "/app/Type of Weapon Involved by Offense_09-30-2025.csv";
                  "/app/Victim's Relationship to Offender_09-30-2025.csv";
                  "/app/Location Type_09-30-2025.csv" ];
      ui := [ StError "❌ File not found: Location Type_09-30-2025.csv" ] |}).
Proof. vm_compute. reflexivity. Qed.

(** C3.  [load_data] is all or nothing.  When it returns a dictionary, every
    one of the ten names maps to a live frame (the frame read from its file,
    melted for the sex tables) and no other name is present; when any of the
    ten files cannot be read, whatever the pattern, it returns [None] or
    raises, so no dictionary at all reaches the dashboard. *)
Theorem load_all_or_nothing
  (base_dir : string) (fs : string -> outcome DataFrame) (w : world) :
  (forall data w',
     load_data base_dir fs w = (Ok (Some data), w') ->
     (forall key filename, In (key, filename) files ->
        exists r df st,
          dict_get data key = Some r /\
          fs (os_path_join base_dir filename) = Ok df /\
          stored key df = Ok st /\
          nth_error (heap w') r = Some st) /\
     (forall key, ~ In key (dict_keys files) -> dict_get data key = None)) /\
  (forall key filename e,
     In (key, filename) files ->
     fs (os_path_join base_dir filename) = Raise e ->
     (exists w', load_data base_dir fs w = (Ok None, w')) \/
     (exists e' w', load_data base_dir fs w = (Raise e', w'))).
Proof.
  assert (Hsome : forall data w',
            load_data base_dir fs w = (Ok (Some data), w') ->
            Forall (loadable base_dir fs) files).
  { intros data w' H. apply (load_loop_some _ _ _ _ _ _ _ H). }
  split.
  - intros data w' H.
    destruct (load_loop_loadable base_dir fs files (Hsome _ _ H) [] w)
      as [data1 [w1 [Hloop [_ [_ [_ [Hkeep Hcontent]]]]]]].
    unfold load_data in H. rewrite Hloop in H. inversion H; subst data1 w1.
    split.
    + apply Hcontent. unfold files. cbn [map fst].
      repeat constructor; cbn [In]; intro Hin;
        repeat (destruct Hin as [Hin|Hin]; [discriminate Hin|]); exact Hin.
    + intros key Hkey. rewrite (Hkeep key Hkey). reflexivity.
  - intros key filename e Hin Hfs.
    destruct (load_data base_dir fs w) as [[[data|]|e'] w'] eqn:Hload.
    + exfalso. pose proof (Hsome _ _ eq_refl) as Hall.
      rewrite Forall_forall in Hall.
      destruct (Hall _ Hin) as [df [st [Hok _]]]. cbn [snd] in Hok.
      rewrite Hfs in Hok. discriminate.
    + left. eexists. reflexivity.
    + right. eexists. eexists. reflexivity.
Qed.

(** C7, counterexample.  The fourth file is there but is not text: reading
    it raises [UnicodeDecodeError], which [except FileNotFoundError] does not
    catch.  [load_data] does not return its failure value and shows no
    message naming the file; the exception of [read_csv] leaves it as is. *)
Lemma load_unreadable_propagates :
  load_data "/app"
    (demo_fs_with "/app/Location Type_09-30-2025.csv" (Raise UnicodeDecodeError))
    empty_world =
  (Raise UnicodeDecodeError,
   {| heap := [ key_value [("Robbery", Num 12); ("Burglary", Num 30); ("Arson", Num 2)];
                weapon_table;
                key_value [("Stranger", Num 80); ("Acquaintance", Num 95)] ];
      opened := [ "/app/Offense Linked to Another Offense_09-30-2025.csv";
                  "/app/Type of Weapon Involved by Offense_09-30-2025.csv";
                  "/app/Victim's Relationship to Offender_09-30-2025.csv";
                  "/app/Location Type_09-30-2025.csv" ];
      ui := [] |}).
Proof. vm_compute. reflexivity. Qed.

(** C7, amended.  Let an entry of [files] be the first that cannot be
    loaded.  If its file does not exist, [load_data] shows the message File
    not found with the file name and returns [None]; if reading it raises
    anything else, that exception leaves [load_data] unchanged and no message
    is shown.  Either way the files after it are never opened. *)
Theorem load_stops_at_first_failure
  (base_dir : string) (fs : string -> outcome DataFrame) (w : world)
  (pre post : dict string) (key filename : string) :
  files = pre ++ (key, filename) :: post ->
  Forall (loadable base_dir fs) pre ->
  (forall p, fs (os_path_join base_dir filename) = Raise (FileNotFoundError p) ->
     exists w',
       load_data base_dir fs w = (Ok None, w') /\
       ui w' = ui w ++ [StError (String.append "❌ File not found: " filename)] /\
       opened w' = opened w ++
                   map (os_path_join base_dir) (map snd (pre ++ [(key, filename)]))) /\
  (forall e, is_FileNotFoundError e = false ->
     fs (os_path_join base_dir filename) = Raise e ->
     exists w',
       load_data base_dir fs w = (Raise e, w') /\
       ui w' = ui w /\
       opened w' = opened w ++
                   map (os_path_join base_dir) (map snd (pre ++ [(key, filename)]))).
Proof.
  intros Hfiles Hpre.
  destruct (load_loop_loadable base_dir fs pre Hpre [] w)
    as [data1 [w1 [Hloop [_ [Hop [Hui _]]]]]].
  assert (Hpaths : forall l : list string,
            l ++ map (os_path_join base_dir) (map snd (pre ++ [(key, filename)])) =
            (l ++ map (os_path_join base_dir) (map snd pre)) ++
            [os_path_join base_dir filename]).
  { intro l. rewrite !map_app. cbn [map snd]. rewrite app_assoc. reflexivity. }
  split.
  - intros p Hfs. eexists. split.
    { unfold load_data. rewrite Hfiles, load_loop_app, Hloop.
      cbn [load_loop]. unfold bind.
      rewrite (load_entry_missing base_dir fs data1 key filename p w1 Hfs).
      reflexivity. }
    cbn [ui opened]. rewrite Hui, Hop, Hpaths. split; reflexivity.
  - intros e He Hfs. eexists. split.
    { unfold load_data. rewrite Hfiles, load_loop_app, Hloop.
      cbn [load_loop]. unfold bind.
      rewrite (load_entry_unreadable base_dir fs data1 key filename e w1 Hfs He).
      reflexivity. }
    cbn [ui opened]. rewrite Hui, Hop, Hpaths. split; reflexivity.
Qed.

Lemma load_stops_at_first_failure_witness :
  (forall p,
     demo_fs_with "/app/Location Type_09-30-2025.csv" (Raise UnicodeDecodeError)
       (os_path_join "/app" "Location Type_09-30-2025.csv") =
       Raise (FileNotFoundError p) ->
     exists w',
       load_data "/app"
         (demo_fs_with "/app/Location Type_09-30-2025.csv" (Raise UnicodeDecodeError))
         empty_world = (Ok None, w') /\
       ui w' = ui empty_world ++
               [StError (String.append "❌ File not found: " "Location Type_09-30-2025.csv")] /\
       opened w' = opened empty_world ++
                   map (os_path_join "/app")
                       (map snd (firstn 3 files ++
                                 [("location_type", "Location Type_09-30-2025.csv")]))) /\
  (forall e, is_FileNotFoundError e = false ->
     demo_fs_with "/app/Location Type_09-30-2025.csv" (Raise UnicodeDecodeError)
       (os_path_join "/app" "Location Type_09-30-2025.csv") = Raise e ->
     exists w',
       load_data "/app"
         (demo_fs_with "/app/Location Type_09-30-2025.csv" (Raise UnicodeDecodeError))
         empty_world = (Raise e, w') /\
       ui w' = ui empty_world /\
       opened w' = opened empty_world ++
                   map (os_path_join "/app")
                       (map snd (firstn 3 files ++
                                 [("location_type", "Location Type_09-30-2025.csv")]))).
Proof.
  apply (load_stops_at_first_failure "/app"
           (demo_fs_with "/app/Location Type_09-30-2025.csv" (Raise UnicodeDecodeError))
           empty_world (firstn 3 files) (skipn 4 files)
           "location_type" "Location Type_09-30-2025.csv").
  - reflexivity.
  - repeat constructor; eexists; eexists; split; reflexivity.
Defined.

(** ** Rendering *)

(** The figures and the tables among a run of Streamlit calls. *)
Definition charts (events : list ui_event) : list Plotly.figure :=
  flat_map (fun e => match e with StPlotlyChart fig => [fig] | _ => [] end) events.

Definition tables (events : list ui_event) : list DataFrame :=
  flat_map (fun e => match e with StDataframe df _ => [df] | _ => [] end) events.

(** The six view identifiers of the sidebar. *)
Definition view_ids : list string :=
  [ "offense_linked"; "weapon_type"; "victim_relationship"; "location_type";
    "victim_demographics"; "offender_demographics" ].

(** The table behind [key] can be drawn as a ranked bar chart: it is in the
    dictionary, alive, and has a key column and a column of counts. *)
Definition bar_ready (w : world) (d : dict ref) (key : string) : Prop :=
  exists r df,
    dict_get d key = Some r /\ nth_error (heap w) r = Some df /\
    count_column df "value" = true /\ has_column "key" df = true.

(** The table behind [key] can be drawn as a donut: it has the two columns
    the melt produces. *)
Definition pie_ready (w : world) (d : dict ref) (key : string) : Prop :=
  exists r df,
    dict_get d key = Some r /\ nth_error (heap w) r = Some df /\
    has_column "Category" df = true /\ has_column "Count" df = true.

Lemma bind_ok {A B : Type} (m : M A) (f : A -> M B) (a : A) (w w' : world) :
  m w = (Ok a, w') -> bind m f w = f a w'.
Proof. intro H. unfold bind. rewrite H. reflexivity. Qed.

Lemma deref_ok (r : ref) (df : DataFrame) (w : world) :
  nth_error (heap w) r = Some df -> deref r w = (Ok df, w).
Proof. intro H. unfold deref. rewrite H. reflexivity. Qed.


Lemma nth_error_last {A : Type} (l : list A) (a : A) :
  nth_error (l ++ [a]) (length l) = Some a.
Proof. rewrite nth_error_app2 by lia. rewrite Nat.sub_diag. reflexivity. Qed.

Lemma has_column_index (name : string) (df : DataFrame) :
  has_column name df = true <-> col_index name (columns df) <> None.
Proof.
  unfold has_column. induction (columns df) as [|c cs IH]; simpl.
  - split; [discriminate|intro H; contradiction H; reflexivity].
  - destruct (String.eqb name c); simpl.
    + split; [discriminate|reflexivity].
    + rewrite IH. destruct (col_index name cs); simpl; split; intro H;
        try discriminate; try (contradiction H; reflexivity); exact H.
Qed.

Lemma count_column_has (df : DataFrame) (y : string) :
  count_column df y = true -> has_column y df = true.
Proof.
  unfold count_column, get_column. intro H. apply has_column_index.
  destruct (col_index y (columns df)); [discriminate|discriminate H].
Qed.

Section Views.

Variable argsort : list cell -> list nat.
Hypothesis argsort_ok : argsort_sorts argsort.

(** One call of [plot_bar_chart] on a ready table: two new frame objects (the
    sorted frame and its first 20 rows), one figure and one table. *)
Lemma plot_bar_chart_ok (w : world) (r : ref) (df : DataFrame) (title : string) :
  nth_error (heap w) r = Some df ->
  count_column df "value" = true ->
  has_column "key" df = true ->
  exists sorted,
    sort_values argsort df "value" false = Ok sorted /\
    plot_bar_chart argsort r title "key" "value" "key" w =
    (Ok tt,
     {| heap := (heap w ++ [sorted]) ++ [head sorted 20];
        opened := opened w;
        ui := (ui w ++ [StPlotlyChart
                          (Plotly.Bar (head sorted 20) "key" "value" "key" title)])
              ++ [StDataframe (head sorted 20) true] |}).
Proof.
  intros Hr Hcount Hkey.
  destruct (count_column_items df "value" Hcount) as [items [Hcol Hall]].
  destruct (sort_values_descending argsort argsort_ok df "value" items Hcol Hall)
    as [ix [Hsort _]].
  eexists. split; [exact Hsort|].
  set (sorted := {| columns := columns df;
                    rows := map (fun i => nth i (rows df) []) (ix ++ missing_idx items) |})
    in *.
  assert (Hk : has_column "key" (head sorted 20) = true) by exact Hkey.
  assert (Hv : has_column "value" (head sorted 20) = true)
    by exact (count_column_has df "value" Hcount).
  unfold plot_bar_chart, df_sort_values, df_head, px_bar, st_plotly_chart,
    st_dataframe, bind, deref, lift, alloc, emit.
  rewrite Hr, Hsort. cbn [heap opened ui].
  rewrite nth_error_last. cbn [heap opened ui].
  rewrite nth_error_last.
  unfold Plotly.bar. rewrite Hk, Hv. cbn [andb heap opened ui].
  rewrite nth_error_last. reflexivity.
Qed.

(** One call of [plot_pie_chart] on a ready table: no new object, one figure
    and one table. *)
Lemma plot_pie_chart_ok (w : world) (r : ref) (df : DataFrame) (title : string) :
  nth_error (heap w) r = Some df ->
  has_column "Category" df = true ->
  has_column "Count" df = true ->
  plot_pie_chart r title w =
  (Ok tt,
   {| heap := heap w;
      opened := opened w;
      ui := (ui w ++ [StPlotlyChart (Plotly.Pie df "Category" "Count" title)])
            ++ [StDataframe df false] |}).
Proof.
  intros Hr Hcat Hcnt.
  unfold plot_pie_chart, px_pie, st_plotly_chart, st_dataframe, bind, deref, lift, emit.
  rewrite Hr. unfold Plotly.pie. rewrite Hcat, Hcnt. cbn [andb heap opened ui].
  rewrite Hr. reflexivity.
Qed.


(** A demographics view, as the last two branches of [render_view] write it. *)
Definition demographics_block (d : dict ref)
  (race_key eth_key sex_key header caption : string)
  (race_sub race_title eth_sub eth_title sex_sub sex_title : string) : M unit :=
  emit (StHeader header) ;;;
  emit (StCaption caption) ;;;
  emit (StColumns 2) ;;;
  with_column 1
    (emit (StSubheader race_sub) ;;;
     df <- getitem d race_key ;;
     plot_bar_chart argsort df race_title "key" "value" "key") ;;;
  with_column 2
    (emit (StSubheader eth_sub) ;;;
     df <- getitem d eth_key ;;
     plot_bar_chart argsort df eth_title "key" "value" "key") ;;;
  emit (StSubheader sex_sub) ;;;
  df <- getitem d sex_key ;;
  plot_pie_chart df sex_title.


Lemma demographics_block_ok (w : world) (d : dict ref)
  (race_key eth_key sex_key header caption : string)
  (race_sub race_title eth_sub eth_title sex_sub sex_title : string) :
  bar_ready w d race_key -> bar_ready w d eth_key -> pie_ready w d sex_key ->
  exists r1 r2 r3 race eth sex sorted_race sorted_eth,
    (dict_get d race_key = Some r1 /\ nth_error (heap w) r1 = Some race) /\
    (dict_get d eth_key = Some r2 /\ nth_error (heap w) r2 = Some eth) /\
    (dict_get d sex_key = Some r3 /\ nth_error (heap w) r3 = Some sex) /\
    sort_values argsort race "value" false = Ok sorted_race /\
    sort_values argsort eth "value" false = Ok sorted_eth /\
    demographics_block d race_key eth_key sex_key header caption
      race_sub race_title eth_sub eth_title sex_sub sex_title w =
    (Ok tt,
     {| heap := heap w ++ [sorted_race; head sorted_race 20;
                           sorted_eth; head sorted_eth 20];
        opened := opened w;
        ui := ui w ++
              [ StHeader header; StCaption caption; StColumns 2;
                StEnter 1; StSubheader race_sub;
                StPlotlyChart
                  (Plotly.Bar (head sorted_race 20) "key" "value" "key" race_title);
                StDataframe (head sorted_race 20) true;
                StExit 1;
                StEnter 2; StSubheader eth_sub;
                StPlotlyChart
                  (Plotly.Bar (head sorted_eth 20) "key" "value" "key" eth_title);
                StDataframe (head sorted_eth 20) true;
                StExit 2;
                StSubheader sex_sub;
                StPlotlyChart (Plotly.Pie sex "Category" "Count" sex_title);
                StDataframe sex false ] |}).
Proof.
  intros [r1 [race [Hget1 [Hr1 [Hcount1 Hkey1]]]]]
         [r2 [eth [Hget2 [Hr2 [Hcount2 Hkey2]]]]]
         [r3 [sex [Hget3 [Hr3 [Hcat Hcnt]]]]].
  set (w1 := {| heap := heap w; opened := opened w;
                ui := ((((ui w ++ [StHeader header]) ++ [StCaption caption])
                        ++ [StColumns 2]) ++ [StEnter 1]) ++ [StSubheader race_sub] |}).
  destruct (plot_bar_chart_ok w1 r1 race race_title Hr1 Hcount1 Hkey1)
    as [sorted_race [Hsort1 Hplot1]].
  set (w2 := {| heap := (heap w1 ++ [sorted_race]) ++ [head sorted_race 20];
                opened := opened w1;
                ui := (((((ui w1 ++ [StPlotlyChart
                            (Plotly.Bar (head sorted_race 20) "key" "value" "key" race_title)])
                          ++ [StDataframe (head sorted_race 20) true])
                         ++ [StExit 1]) ++ [StEnter 2]) ++ [StSubheader eth_sub]) |}).
  assert (Hr2' : nth_error (heap w2) r2 = Some eth).
  { apply (heap_extends_lookup w w2); [|exact Hr2].
    exists [sorted_race; head sorted_race 20]. unfold w2, w1. cbn [heap].
    rewrite <- app_assoc. reflexivity. }
  destruct (plot_bar_chart_ok w2 r2 eth eth_title Hr2' Hcount2 Hkey2)
    as [sorted_eth [Hsort2 Hplot2]].
  set (w3 := {| heap := (heap w2 ++ [sorted_eth]) ++ [head sorted_eth 20];
                opened := opened w2;
                ui := ((((ui w2 ++ [StPlotlyChart
                           (Plotly.Bar (head sorted_eth 20) "key" "value" "key" eth_title)])
                         ++ [StDataframe (head sorted_eth 20) true])
                        ++ [StExit 2]) ++ [StSubheader sex_sub]) |}).
  assert (Hr3' : nth_error (heap w3) r3 = Some sex).
  { apply (heap_extends_lookup w w3); [|exact Hr3].
    exists [sorted_race; head sorted_race 20; sorted_eth; head sorted_eth 20].
    unfold w3, w2, w1. cbn [heap]. repeat rewrite <- app_assoc. reflexivity. }
  pose proof (plot_pie_chart_ok w3 r3 sex sex_title Hr3' Hcat Hcnt) as Hplot3.
  exists r1, r2, r3, race, eth, sex, sorted_race, sorted_eth.
  split; [split; assumption|]. split; [split; assumption|].
  split; [split; assumption|]. split; [exact Hsort1|]. split; [exact Hsort2|].
  unfold demographics_block, with_column, bind, emit, getitem.
  cbn [heap opened ui].
  rewrite Hget1. unfold ret. fold w1. rewrite Hplot1. cbn [heap opened ui snd].
  rewrite Hget2. fold w2. rewrite Hplot2. cbn [heap opened ui snd].
  rewrite Hget3. fold w3. rewrite Hplot3.
  unfold w3, w2, w1. cbn [heap opened ui].
  repeat rewrite <- app_assoc. reflexivity.
Qed.

End Views.

(** The frame a key of the dictionary stands for. *)
Definition table_of (w : world) (d : dict ref) (key : string) : option DataFrame :=
  match dict_get d key with
  | Some r => nth_error (heap w) r
  | None => None
  end.

(** The world and the dictionary after loading the demo directory. *)
Definition demo_world : world :=
  Eval vm_compute in snd (load_data "/app" demo_fs empty_world).

Definition demo_data : dict ref :=
  [ ("offense_linked", 0); ("weapon_type", 1); ("victim_relationship", 2);
    ("location_type", 3); ("victim_ethnicity", 4); ("offender_ethnicity", 5);
    ("victim_race", 6); ("offender_race", 7); ("victim_sex", 9);
    ("offender_sex", 11) ].

Example demo_loaded :
  load_data "/app" demo_fs empty_world = (Ok (Some demo_data), demo_world).
Proof. vm_compute. reflexivity. Qed.

Lemma demo_bar_ready (key : string) :
  In key [ "offense_linked"; "weapon_type"; "victim_relationship";
           "location_type"; "victim_ethnicity"; "offender_ethnicity";
           "victim_race"; "offender_race" ] ->
  bar_ready demo_world demo_data key.
Proof.
  intro H. cbn [In] in H.
  repeat (destruct H as [<-|H];
          [eexists; eexists; repeat split; vm_compute; reflexivity|]).
  contradiction.
Qed.

Lemma demo_pie_ready (key : string) :
  In key ["victim_sex"; "offender_sex"] -> pie_ready demo_world demo_data key.
Proof.
  intro H. cbn [In] in H.
  repeat (destruct H as [<-|H];
          [eexists; eexists; repeat split; vm_compute; reflexivity|]).
  contradiction.
Qed.

Lemma bar_ready_table (w : world) (d : dict ref) (key : string) (r : ref)
  (df : DataFrame) :
  dict_get d key = Some r -> nth_error (heap w) r = Some df ->
  table_of w d key = Some df.
Proof. intros H1 H2. unfold table_of. rewrite H1. exact H2. Qed.

(** C6.  For each of the two demographic views, on a loaded dictionary whose
    race and ethnicity tables have a key column and a column of counts and
    whose sex table has the two molten columns, the dashboard renders without
    error exactly three figures and three tables, in this order: the top 20
    of the race table as a bar chart, the top 20 of the ethnicity table as a
    bar chart, and the sex table as a donut. *)
Theorem demographics_three_renderings
  (argsort : list cell -> list nat) (w : world) (d : dict ref)
  (view race_key eth_key sex_key : string) :
  argsort_sorts argsort ->
  (view, race_key, eth_key, sex_key) =
    ("victim_demographics", "victim_race", "victim_ethnicity", "victim_sex") \/
  (view, race_key, eth_key, sex_key) =
    ("offender_demographics", "offender_race", "offender_ethnicity", "offender_sex") ->
  bar_ready w d race_key -> bar_ready w d eth_key -> pie_ready w d sex_key ->
  exists race eth sex sorted_race sorted_eth w' events,
    table_of w d race_key = Some race /\
    table_of w d eth_key = Some eth /\
    table_of w d sex_key = Some sex /\
    sort_values argsort race "value" false = Ok sorted_race /\
    sort_values argsort eth "value" false = Ok sorted_eth /\
    dashboard argsort (Some d) view w = (Ok tt, w') /\
    ui w' = ui w ++ events /\
    (exists t1 t2 t3,
       charts events =
         [ Plotly.Bar (head sorted_race 20) "key" "value" "key" t1;
           Plotly.Bar (head sorted_eth 20) "key" "value" "key" t2;
           Plotly.Pie sex "Category" "Count" t3 ]) /\
    tables events = [head sorted_race 20; head sorted_eth 20; sex].
Proof.
  intros Hok Hview Hrace Heth Hsex.
  assert (Hd : exists entry d', d = entry :: d').
  { destruct Hrace as [r [df [Hget _]]]. destruct d as [|entry d'].
    - discriminate Hget.
    - exists entry, d'. reflexivity. }
  destruct Hd as [entry [d' Hd]].
  destruct Hview as [Hview|Hview]; inversion Hview; subst view race_key eth_key sex_key.
  - destruct (demographics_block_ok argsort Hok w d
                "victim_race" "victim_ethnicity" "victim_sex"
                "🧍 Victim Demographics"
                "Breakdown of victim demographics by race, ethnicity, and sex."
                "Victim Race" "Victim Race Distribution"
                "Victim Ethnicity" "Victim Ethnicity Distribution"
                "Victim Sex" "Victim Sex Distribution" Hrace Heth Hsex)
      as [r1 [r2 [r3 [race [eth [sex [sr [se
           [[Hg1 Hn1] [[Hg2 Hn2] [[Hg3 Hn3] [Hs1 [Hs2 Hrun]]]]]]]]]]]]].
    exists race, eth, sex, sr, se. eexists. eexists.
    split; [apply (bar_ready_table _ _ _ _ _ Hg1 Hn1)|].
    split; [apply (bar_ready_table _ _ _ _ _ Hg2 Hn2)|].
    split; [apply (bar_ready_table _ _ _ _ _ Hg3 Hn3)|].
    split; [exact Hs1|]. split; [exact Hs2|].
    split; [rewrite Hd in *; exact Hrun|].
    cbn [ui]. split; [reflexivity|].
    split; [eexists; eexists; eexists; reflexivity|reflexivity].
  - destruct (demographics_block_ok argsort Hok w d
                "offender_race" "offender_ethnicity" "offender_sex"
                "🧑‍⚖️ Offender Demographics"
                "Breakdown of offender demographics by race, ethnicity, and sex."
                "Offender Race" "Offender Race Distribution"
                "Offender Ethnicity" "Offender Ethnicity Distribution"
                "Offender Sex" "Offender Sex Distribution" Hrace Heth Hsex)
      as [r1 [r2 [r3 [race [eth [sex [sr [se
           [[Hg1 Hn1] [[Hg2 Hn2] [[Hg3 Hn3] [Hs1 [Hs2 Hrun]]]]]]]]]]]]].
    exists race, eth, sex, sr, se. eexists. eexists.
    split; [apply (bar_ready_table _ _ _ _ _ Hg1 Hn1)|].
    split; [apply (bar_ready_table _ _ _ _ _ Hg2 Hn2)|].
    split; [apply (bar_ready_table _ _ _ _ _ Hg3 Hn3)|].
    split; [exact Hs1|]. split; [exact Hs2|].
    split; [rewrite Hd in *; exact Hrun|].
    cbn [ui]. split; [reflexivity|].
    split; [eexists; eexists; eexists; reflexivity|reflexivity].
Qed.

Lemma demographics_three_renderings_witness :
  exists race eth sex sorted_race sorted_eth w' events,
    table_of demo_world demo_data "victim_race" = Some race /\
    table_of demo_world demo_data "victim_ethnicity" = Some eth /\
    table_of demo_world demo_data "victim_sex" = Some sex /\
    sort_values argsort_stable race "value" false = Ok sorted_race /\
    sort_values argsort_stable eth "value" false = Ok sorted_eth /\
    dashboard argsort_stable (Some demo_data) "victim_demographics" demo_world =
      (Ok tt, w') /\
    ui w' = ui demo_world ++ events /\
    (exists t1 t2 t3,
       charts events =
         [ Plotly.Bar (head sorted_race 20) "key" "value" "key" t1;
           Plotly.Bar (head sorted_eth 20) "key" "value" "key" t2;
           Plotly.Pie sex "Category" "Count" t3 ]) /\
    tables events = [head sorted_race 20; head sorted_eth 20; sex].
Proof.
  apply (demographics_three_renderings argsort_stable demo_world demo_data
           "victim_demographics" "victim_race" "victim_ethnicity" "victim_sex"
           argsort_stable_sorts).
  - left. reflexivity.
  - apply demo_bar_ready. simpl. tauto.
  - apply demo_bar_ready. simpl. tauto.
  - apply demo_pie_ready. simpl. tauto.
Defined.

(** *** Which tables the views draw *)


Definition pie_keys : list string := ["victim_sex"; "offender_sex"].

(** ** Rendering leaves the loaded tables alone *)

(** A computation that, whatever it returns or raises, only adds frame
    objects. *)
Definition extends_only {A : Type} (m : M A) : Prop :=
  forall w, heap_extends w (snd (m w)).

Lemma ext_ret {A : Type} (a : A) : extends_only (ret a).
Proof. intro w. apply heap_extends_refl. Qed.

Lemma ext_raise {A : Type} (e : exn) : extends_only (@raise A e).
Proof. intro w. apply heap_extends_refl. Qed.

Lemma ext_lift {A : Type} (o : outcome A) : extends_only (lift o).
Proof. intro w. apply heap_extends_refl. Qed.

Lemma ext_emit (e : ui_event) : extends_only (emit e).
Proof. intro w. exists []. cbn. rewrite app_nil_r. reflexivity. Qed.

Lemma ext_deref (r : ref) : extends_only (deref r).
Proof.
  intro w. unfold deref. destruct (nth_error (heap w) r); apply heap_extends_refl.
Qed.

Lemma ext_alloc (df : DataFrame) : extends_only (alloc df).
Proof. intro w. exists [df]. reflexivity. Qed.

Lemma ext_getitem {V : Type} (d : dict V) (k : string) : extends_only (getitem d k).
Proof.
  unfold getitem. destruct (dict_get d k); [apply ext_ret|apply ext_raise].
Qed.

Lemma ext_bind {A B : Type} (m : M A) (f : A -> M B) :
  extends_only m -> (forall a, extends_only (f a)) -> extends_only (bind m f).
Proof.
  intros Hm Hf w. unfold bind. specialize (Hm w).
  destruct (m w) as [[a|e] w1]; cbn [snd] in *.
  - apply (heap_extends_trans _ _ _ Hm). apply Hf.
  - exact Hm.
Qed.

Lemma ext_with_column {A : Type} (column : nat) (body : M A) :
  extends_only body -> extends_only (with_column column body).
Proof.
  intros Hb w. unfold with_column.
  pose proof (ext_bind (emit (StEnter column)) (fun _ => body)
                (ext_emit _) (fun _ => Hb) w) as H.
  destruct ((emit (StEnter column) ;;; body) w) as [r w1]. cbn [snd] in *.
  destruct H as [l H]. exists l. exact H.
Qed.

Ltac frame :=
  repeat first
    [ apply ext_ret | apply ext_raise | apply ext_lift | apply ext_emit
    | apply ext_deref | apply ext_alloc | apply ext_getitem
    | apply ext_with_column
    | apply ext_bind; [|intro] ].

Lemma ext_plot_bar_chart (argsort : list cell -> list nat) (df : ref)
  (title x y color : string) :
  extends_only (plot_bar_chart argsort df title x y color).
Proof.
  unfold plot_bar_chart, df_sort_values, df_head, px_bar, st_plotly_chart,
    st_dataframe.
  frame.
Qed.

Lemma ext_plot_pie_chart (df : ref) (title : string) :
  extends_only (plot_pie_chart df title).
Proof.
  unfold plot_pie_chart, px_pie, st_plotly_chart, st_dataframe. frame.
Qed.

Lemma ext_render_view (argsort : list cell -> list nat) (d : dict ref)
  (view : string) :
  extends_only (render_view argsort d view).
Proof.
  unfold render_view.
  repeat match goal with
  | |- context [if ?b then _ else _] => destruct b
  end;
  repeat first [ apply ext_plot_bar_chart | apply ext_plot_pie_chart
               | apply ext_ret | apply ext_emit | apply ext_getitem
               | apply ext_with_column | apply ext_bind; [|intro] ].
Qed.

Lemma ext_dashboard (argsort : list cell -> list nat) (data : option (dict ref))
  (view : string) :
  extends_only (dashboard argsort data view).
Proof.
  unfold dashboard. destruct data as [[|entry d]|].
  - apply ext_emit.
  - apply ext_render_view.
  - apply ext_emit.
Qed.

(** C9.  Rendering never changes a loaded table: whatever the dictionary and
    the view identifier, and whether the rendering returns or raises, every
    frame object that exists before [plot_bar_chart], [plot_pie_chart] or the
    whole dashboard block runs is the same frame afterwards.  The sort and
    the truncation of the bar chart make new objects. *)
Theorem rendering_keeps_tables
  (argsort : list cell -> list nat) (w : world) (r : ref) (df : DataFrame) :
  nth_error (heap w) r = Some df ->
  (forall data view,
     nth_error (heap (snd (dashboard argsort data view w))) r = Some df) /\
  (forall table title x y color,
     nth_error (heap (snd (plot_bar_chart argsort table title x y color w))) r =
     Some df) /\
  (forall table title,
     nth_error (heap (snd (plot_pie_chart table title w))) r = Some df).
Proof.
  intro Hr. split; [|split].
  - intros data view.
    apply (heap_extends_lookup w _ r df (ext_dashboard argsort data view w) Hr).
  - intros table title x y color.
    apply (heap_extends_lookup w _ r df
             (ext_plot_bar_chart argsort table title x y color w) Hr).
  - intros table title.
    apply (heap_extends_lookup w _ r df (ext_plot_pie_chart table title w) Hr).
Qed.

Lemma rendering_keeps_tables_witness :
  (forall data view,
     nth_error (heap (snd (dashboard argsort_stable data view demo_world))) 1 =
     Some weapon_table) /\
  (forall table title x y color,
     nth_error
       (heap (snd (plot_bar_chart argsort_stable table title x y color demo_world))) 1 =
     Some weapon_table) /\
  (forall table title,
     nth_error (heap (snd (plot_pie_chart table title demo_world))) 1 =
     Some weapon_table).
Proof.
  exact (rendering_keeps_tables argsort_stable demo_world 1 weapon_table eq_refl).
Defined.

(** The weapon view of the demo: the registry entry is still the unsorted
    table read from the file, the figure shows its top 20. *)
Example weapon_view_demo :
  match dashboard argsort_stable (Some demo_data) "weapon_type" demo_world with
  | (Ok tt, w') =>
      table_of w' demo_data "weapon_type" = Some weapon_table /\
      length (heap w') = 14 /\
      match charts (ui w') with
      | [Plotly.Bar shown _ _ _ title] =>
          title = "Weapon Types in Offenses" /\
          length (rows shown) = 20 /\
          nth 0 (rows shown) [] = [Str "Firearm"; Num 500]
      | _ => False
      end
  | _ => False
  end.
Proof. vm_compute. repeat split. Qed.

(** The whole script when a file is missing: the loader's message, then the
    sidebar and the page header, then the warning instead of any view. *)
Example script_without_data :
  ui (snd (script "/app"
             (demo_fs_with "/app/Victim race_09-30-2025.csv"
                (Raise (FileNotFoundError "/app/Victim race_09-30-2025.csv")))
             argsort_stable 4 empty_world)) =
  [ StError "❌ File not found: Victim race_09-30-2025.csv";
    StSidebarTitle "📊 Navigation";
    StSidebarInfo "Choose a dataset to explore FBI crime data.";
    StSidebarRadio "Go to:" (dict_keys dataset_options);
    StTitle "⚖️ FBI Crime Data Analysis Dashboard";
    StMarkdown "Explore various aspects of FBI-reported crime data with interactive charts and tables.";
    StDivider;
    StWarning "⚠️ Data could not be loaded. Please ensure all CSV files are in the same directory." ].
Proof. vm_compute. reflexivity. Qed.

(** * Further properties *)

(** ** What the ranked bar chart keeps and drops *)

Lemma StronglySorted_split {A : Type} (R : A -> A -> Prop) (l1 l2 : list A) :
  StronglySorted R (l1 ++ l2) ->
  forall a b, In a l1 -> In b l2 -> R a b.
Proof.
  induction l1 as [|x l1 IH]; intros H a b Ha Hb; [contradiction|].
  simpl in H. inversion H as [|? ? Hs Hf]; subst.
  destruct Ha as [<-|Ha].
  - rewrite Forall_forall in Hf. apply Hf, in_or_app. right. exact Hb.
  - apply (IH Hs a b Ha Hb).
Qed.

Section TopTwenty.

Variable argsort : list cell -> list nat.
Hypothesis argsort_ok : argsort_sorts argsort.

(** The sorted frame of a count column: a rearrangement of the input rows
    whose counts descend, missing last. *)
Lemma sorted_frame (df : DataFrame) (y : string) (j : nat) :
  col_index y (columns df) = Some j ->
  count_column df y = true ->
  exists sorted,
    sort_values argsort df y false = Ok sorted /\
    columns sorted = columns df /\
    Permutation (rows sorted) (rows df) /\
    StronglySorted count_ge (map (cell_at j) (rows sorted)).
Proof.
  intros Hj Hc.
  destruct (count_column_items df y Hc) as [items [Hcol Hall]].
  destruct (sort_values_descending argsort argsort_ok df y items Hcol Hall)
    as [ix [Hsort [Hperm [_ [Hsorted _]]]]].
  assert (Hitems : items = map (cell_at j) (rows df)).
  { unfold get_column in Hcol. rewrite Hj in Hcol. inversion Hcol. reflexivity. }
  eexists. split; [exact Hsort|]. cbn [columns rows].
  split; [reflexivity|]. split.
  - transitivity (map (fun i => nth i (rows df) []) (seq 0 (length (rows df)))).
    + apply Permutation_map. exact Hperm.
    + rewrite nth_positions. reflexivity.
  - rewrite map_map.
    erewrite map_ext; [exact Hsorted|].
    intro i. cbv beta. rewrite Hitems. symmetry. apply column_cell.
Qed.

(** In the sorted frame every row among the first 20 has a count at least
    as large as that of every row after them, a missing count being below
    every number. *)
Lemma top20_dominates_dropped (df : DataFrame) (y : string) (j : nat) :
  col_index y (columns df) = Some j ->
  count_column df y = true ->
  exists sorted,
    sort_values argsort df y false = Ok sorted /\
    Permutation (rows (head sorted 20) ++ skipn 20 (rows sorted)) (rows df) /\
    forall kept dropped,
      In kept (rows (head sorted 20)) ->
      In dropped (skipn 20 (rows sorted)) ->
      count_ge (cell_at j kept) (cell_at j dropped).
Proof.
  intros Hj Hc.
  destruct (sorted_frame df y j Hj Hc) as [sorted [Hsort [_ [Hperm Hdesc]]]].
  exists sorted. split; [exact Hsort|]. cbn [head rows]. split.
  - rewrite firstn_skipn. exact Hperm.
  - intros kept dropped Hk Hd.
    rewrite <- (firstn_skipn 20 (rows sorted)), map_app in Hdesc.
    apply (StronglySorted_split count_ge _ _ Hdesc).
    + apply in_map. exact Hk.
    + apply in_map. exact Hd.
Qed.

(** The first 20 rows of the sorted frame of a table of at most 20 rows are
    a rearrangement of all the rows of the table. *)
Lemma small_table_shown_whole (df : DataFrame) (y : string) :
  count_column df y = true ->
  length (rows df) <= 20 ->
  exists sorted,
    sort_values argsort df y false = Ok sorted /\
    Permutation (rows (head sorted 20)) (rows df).
Proof.
  intros Hc Hlen.
  assert (Hj : exists j, col_index y (columns df) = Some j).
  { unfold count_column, get_column in Hc.
    destruct (col_index y (columns df)) as [j|]; [exists j; reflexivity|discriminate]. }
  destruct Hj as [j Hj].
  destruct (sorted_frame df y j Hj Hc) as [sorted [Hsort [_ [Hperm _]]]].
  exists sorted. split; [exact Hsort|]. cbn [head rows].
  rewrite firstn_all2; [exact Hperm|].
  rewrite (Permutation_length Hperm). exact Hlen.
Qed.

End TopTwenty.

(** ** The chart helpers on any input *)


(** X4.  [plot_pie_chart] neither sorts nor truncates nor creates a frame:
    when it returns, the figure and the table it has shown are of the frame
    exactly as stored, and nothing else in the world has changed; when it
    raises, the world is as before. *)
Theorem pie_chart_shows_table_as_stored (df : ref) (title : string) (w : world) :
  match plot_pie_chart df title w with
  | (Ok _, w') =>
      exists d,
        nth_error (heap w) df = Some d /\
        w' = {| heap := heap w;
                opened := opened w;
                ui := ui w ++
                      [ StPlotlyChart (Plotly.Pie d "Category" "Count" title);
                        StDataframe d false ] |}
  | (Raise _, w') => w' = w
  end.
Proof.
  unfold plot_pie_chart, px_pie, st_plotly_chart, st_dataframe, bind, deref,
    lift, emit.
  destruct (nth_error (heap w) df) as [d|] eqn:Hd; [|reflexivity].
  unfold Plotly.pie.
  destruct (has_column "Category" d && has_column "Count" d); [|reflexivity].
  cbn [heap opened ui]. rewrite Hd. exists d. split; [reflexivity|].
  cbn [heap opened ui]. rewrite <- app_assoc. reflexivity.
Qed.

(** ** Rendering does no input *)

(** A computation that opens no file. *)
Definition opens_nothing {A : Type} (m : M A) : Prop :=
  forall w, opened (snd (m w)) = opened w.

Lemma quiet_ret {A : Type} (a : A) : opens_nothing (ret a).
Proof. intro w. reflexivity. Qed.

Lemma quiet_raise {A : Type} (e : exn) : opens_nothing (@raise A e).
Proof. intro w. reflexivity. Qed.

Lemma quiet_lift {A : Type} (o : outcome A) : opens_nothing (lift o).
Proof. intro w. reflexivity. Qed.

Lemma quiet_emit (e : ui_event) : opens_nothing (emit e).
Proof. intro w. reflexivity. Qed.

Lemma quiet_alloc (df : DataFrame) : opens_nothing (alloc df).
Proof. intro w. reflexivity. Qed.

Lemma quiet_deref (r : ref) : opens_nothing (deref r).
Proof. intro w. unfold deref. destruct (nth_error (heap w) r); reflexivity. Qed.

Lemma quiet_getitem {V : Type} (d : dict V) (k : string) :
  opens_nothing (getitem d k).
Proof.
  unfold getitem. destruct (dict_get d k); [apply quiet_ret|apply quiet_raise].
Qed.

Lemma quiet_bind {A B : Type} (m : M A) (f : A -> M B) :
  opens_nothing m -> (forall a, opens_nothing (f a)) -> opens_nothing (bind m f).
Proof.
  intros Hm Hf w. unfold bind. specialize (Hm w).
  destruct (m w) as [[a|e] w1]; cbn [snd] in *.
  - rewrite Hf. exact Hm.
  - exact Hm.
Qed.

Lemma quiet_with_column {A : Type} (column : nat) (body : M A) :
  opens_nothing body -> opens_nothing (with_column column body).
Proof.
  intros Hb w. unfold with_column.
  pose proof (quiet_bind (emit (StEnter column)) (fun _ => body)
                (quiet_emit _) (fun _ => Hb) w) as H.
  destruct ((emit (StEnter column) ;;; body) w) as [r w1]. cbn [snd] in *.
  exact H.
Qed.

Ltac quiet :=
  repeat first
    [ apply quiet_ret | apply quiet_raise | apply quiet_lift | apply quiet_emit
    | apply quiet_deref | apply quiet_alloc | apply quiet_getitem
    | apply quiet_with_column
    | apply quiet_bind; [|intro] ].

Lemma quiet_plot_bar_chart (argsort : list cell -> list nat) (df : ref)
  (title x y color : string) :
  opens_nothing (plot_bar_chart argsort df title x y color).
Proof.
  unfold plot_bar_chart, df_sort_values, df_head, px_bar, st_plotly_chart,
    st_dataframe.
  quiet.
Qed.

Lemma quiet_plot_pie_chart (df : ref) (title : string) :
  opens_nothing (plot_pie_chart df title).
Proof.
  unfold plot_pie_chart, px_pie, st_plotly_chart, st_dataframe. quiet.
Qed.

(** X5.  Rendering does no input: whatever the dictionary and the view
    identifier, and whether it returns or raises, the dashboard block hands
    no path to [read_csv]. *)
Theorem rendering_opens_no_file
  (argsort : list cell -> list nat) (data : option (dict ref)) (view : string)
  (w : world) :
  opened (snd (dashboard argsort data view w)) = opened w.
Proof.
  revert w. change (opens_nothing (dashboard argsort data view)).
  unfold dashboard. destruct data as [[|entry d]|]; try apply quiet_emit.
  unfold render_view.
  repeat match goal with
  | |- context [if ?b then _ else _] => destruct b
  end;
  repeat first [ apply quiet_plot_bar_chart | apply quiet_plot_pie_chart
               | apply quiet_ret | apply quiet_emit | apply quiet_getitem
               | apply quiet_with_column | apply quiet_bind; [|intro] ].
Qed.

(** X6.  A missing table is found out late: for each of the four views with
    one chart, on a dictionary without the key of the view the dashboard
    first shows the header and the caption and then raises [KeyError] for the
    key, with no chart and no table. *)
Theorem missing_table_raises_after_header
  (argsort : list cell -> list nat) (d : dict ref) (view : string) (w : world) :
  In view ["offense_linked"; "weapon_type"; "victim_relationship"; "location_type"] ->
  dict_get d view = None ->
  exists header caption,
    render_view argsort d view w =
    (Raise (KeyError view),
     {| heap := heap w;
        opened := opened w;
        ui := ui w ++ [StHeader header; StCaption caption] |}).
Proof.
  intros Hin Hnone. cbn [In] in Hin.
  destruct Hin as [<-|[<-|[<-|[<-|[]]]]];
    eexists; eexists; unfold render_view; cbn [String.eqb Ascii.eqb Bool.eqb];
    unfold bind, emit, getitem; cbn [heap opened ui];
    rewrite Hnone; unfold raise; rewrite <- app_assoc; reflexivity.
Qed.

Lemma missing_table_raises_after_header_witness :
  exists header caption,
    render_view argsort_stable [("offense_linked", 0)] "weapon_type" demo_world =
    (Raise (KeyError "weapon_type"),
     {| heap := heap demo_world;
        opened := opened demo_world;
        ui := ui demo_world ++ [StHeader header; StCaption caption] |}).
Proof.
  apply (missing_table_raises_after_header argsort_stable
           [("offense_linked", 0)] "weapon_type" demo_world).
  - simpl. tauto.
  - reflexivity.
Defined.

(** ** More on loading *)

Lemma files_keys_nodup : NoDup (dict_keys files).
Proof.
  unfold files, dict_keys. cbn [map fst].
  repeat constructor; cbn [In]; intro Hin;
    repeat (destruct Hin as [Hin|Hin]; [discriminate Hin|]); exact Hin.
Qed.

Lemma dict_keys_set_new {V : Type} (d : dict V) (k : string) (v : V) :
  ~ In k (dict_keys d) -> dict_keys (dict_set d k v) = dict_keys d ++ [k].
Proof.
  unfold dict_keys. induction d as [|[k0 v0] d IH]; intro Hk; simpl.
  - reflexivity.
  - destruct (String.eqb k k0) eqn:He.
    + apply String.eqb_eq in He. subst k0. exfalso. apply Hk. left. reflexivity.
    + simpl. f_equal. apply IH. intro Hin. apply Hk. right. exact Hin.
Qed.

Section LoaderMore.

Variable base_dir : string.
Variable fs : string -> outcome DataFrame.

(** What one turn of the loop can do. *)
Lemma load_entry_cases (data : dict ref) (key filename : string) (w : world) :
  match load_entry base_dir fs data key filename w with
  | (Ok (Some data'), w') =>
      (exists r, data' = dict_set data key r) /\ ui w' = ui w
  | (Ok None, w') =>
      (exists p, fs (os_path_join base_dir filename) = Raise (FileNotFoundError p)) /\
      ui w' = ui w ++ [StError (String.append "❌ File not found: " filename)]
  | (Raise e, w') => ui w' = ui w
  end.
Proof.
  destruct (fs (os_path_join base_dir filename)) as [df|e] eqn:Hfs.
  - destruct (stored key df) as [st|e] eqn:Hst.
    + destruct (load_entry_stored base_dir fs data key filename df st w Hfs Hst)
        as [r [w' [He [_ [_ [_ Hui]]]]]].
      rewrite He. split; [exists r; reflexivity|exact Hui].
    + unfold load_entry, try_except_FileNotFoundError, bind, pd_read_csv.
      rewrite Hfs. unfold stored in Hst.
      destruct (str_contains "sex" key); [|discriminate].
      unfold df_melt, bind, alloc, deref, lift. cbn [heap opened ui].
      rewrite nth_error_app2 by lia. rewrite Nat.sub_diag. cbn [nth_error].
      rewrite Hst. pose proof (melt_raises _ _ _ _ Hst) as He.
      destruct e; try discriminate He; reflexivity.
  - destruct (is_FileNotFoundError e) eqn:He.
    + destruct e; try discriminate He.
      rewrite (load_entry_missing base_dir fs data key filename _ w Hfs).
      split; [eexists; reflexivity|reflexivity].
    + rewrite (load_entry_unreadable base_dir fs data key filename e w Hfs He).
      reflexivity.
Qed.

Lemma load_loop_messages (items : dict string) (data : dict ref) (w : world) :
  match load_loop base_dir fs items data w with
  | (Ok None, w') =>
      exists key filename p,
        In (key, filename) items /\
        fs (os_path_join base_dir filename) = Raise (FileNotFoundError p) /\
        ui w' = ui w ++ [StError (String.append "❌ File not found: " filename)]
  | (_, w') => ui w' = ui w
  end.
Proof.
  revert data w. induction items as [|[key filename] items IH]; intros data w.
  - reflexivity.
  - cbn [load_loop]. unfold bind.
    pose proof (load_entry_cases data key filename w) as Hc.
    destruct (load_entry base_dir fs data key filename w) as [[[data1|]|e] w1].
    + destruct Hc as [_ Hui]. specialize (IH data1 w1).
      destruct (load_loop base_dir fs items data1 w1) as [[[data2|]|e] w2].
      * rewrite IH. exact Hui.
      * destruct IH as [k [f [p [Hin [Hfs Hmsg]]]]].
        exists k, f, p. split; [right; exact Hin|]. split; [exact Hfs|].
        rewrite Hmsg, Hui. reflexivity.
      * rewrite IH. exact Hui.
    + destruct Hc as [[p Hfs] Hui].
      exists key, filename, p. split; [left; reflexivity|]. split; assumption.
    + exact Hc.
Qed.

Lemma load_loop_keys (items : dict string) (data data' : dict ref) (w w' : world) :
  load_loop base_dir fs items data w = (Ok (Some data'), w') ->
  NoDup (dict_keys data ++ map fst items) ->
  dict_keys data' = dict_keys data ++ map fst items.
Proof.
  revert data w. induction items as [|[key filename] items IH]; intros data w H Hnd.
  - cbn in H. inversion H. simpl. rewrite app_nil_r. reflexivity.
  - cbn [load_loop] in H. unfold bind in H.
    pose proof (load_entry_cases data key filename w) as Hc.
    destruct (load_entry base_dir fs data key filename w) as [[[data1|]|e] w1];
      try discriminate H.
    destruct Hc as [[r Hd] _]. subst data1.
    cbn [map fst] in *.
    assert (Hnew : ~ In key (dict_keys data)).
    { apply NoDup_remove_2 in Hnd. intro Hin. apply Hnd.
      apply in_or_app. left. exact Hin. }
    rewrite (IH _ _ H).
    + rewrite (dict_keys_set_new data key r Hnew), <- app_assoc. reflexivity.
    + rewrite (dict_keys_set_new data key r Hnew), <- app_assoc. exact Hnd.
Qed.

(** X7.  [load_data] returns a dictionary exactly when every one of the ten
    entries can be loaded: its file is read and, for a sex table, melted. *)
Theorem load_succeeds_iff_all_loadable (w : world) :
  (exists data w', load_data base_dir fs w = (Ok (Some data), w')) <->
  Forall (loadable base_dir fs) files.
Proof.
  split.
  - intros [data [w' H]]. apply (load_loop_some _ _ _ _ _ _ _ H).
  - intro Hall.
    destruct (load_loop_loadable base_dir fs files Hall [] w)
      as [data [w' [Hloop _]]].
    exists data, w'. exact Hloop.
Qed.

(** X8.  A successful load leaves the keys of the dictionary in the order
    of [files], has handed to [read_csv] exactly the ten paths under the
    directory of the script, in that order and once each, and has shown
    nothing. *)
Theorem load_success_effects (w w' : world) (data : dict ref) :
  load_data base_dir fs w = (Ok (Some data), w') ->
  dict_keys data = dict_keys files /\
  opened w' = opened w ++ map (os_path_join base_dir) (map snd files) /\
  ui w' = ui w.
Proof.
  intro H. split.
  - apply (load_loop_keys files [] data w w' H). exact files_keys_nodup.
  - destruct (load_loop_loadable base_dir fs files
                (load_loop_some _ _ _ _ _ _ _ H) [] w)
      as [data1 [w1 [Hloop [_ [Hop [Hui _]]]]]].
    unfold load_data in H. rewrite Hloop in H. inversion H; subst data1 w1.
    split; assumption.
Qed.

(** X9.  [load_data] shows a message only when it returns [None], and then
    exactly one, which names a file that does not exist; when it returns a
    dictionary or raises it has shown nothing. *)
Theorem load_shows_at_most_one_message (w : world) :
  match load_data base_dir fs w with
  | (Ok None, w') =>
      exists key filename p,
        In (key, filename) files /\
        fs (os_path_join base_dir filename) = Raise (FileNotFoundError p) /\
        ui w' = ui w ++ [StError (String.append "❌ File not found: " filename)]
  | (_, w') => ui w' = ui w
  end.
Proof. exact (load_loop_messages files [] w). Qed.

(** X10.  The loader and the donut fit together: after a successful load,
    each of the two sex tables has exactly the columns Category and Count,
    and [plot_pie_chart] on it returns without error. *)
Theorem loaded_sex_tables_draw (w w' : world) (data : dict ref)
  (key title : string) :
  load_data base_dir fs w = (Ok (Some data), w') ->
  In key pie_keys ->
  exists r df,
    dict_get data key = Some r /\
    nth_error (heap w') r = Some df /\
    columns df = ["Category"; "Count"] /\
    fst (plot_pie_chart r title w') = Ok tt.
Proof.
  intros H Hin.
  destruct (load_loop_loadable base_dir fs files
              (load_loop_some _ _ _ _ _ _ _ H) [] w)
    as [data1 [w1 [Hloop [_ [_ [_ [_ Hcontent]]]]]]].
  unfold load_data in H. rewrite Hloop in H. inversion H; subst data1 w1.
  specialize (Hcontent files_keys_nodup).
  assert (Hfile : exists filename,
            In (key, filename) files /\ str_contains "sex" key = true).
  { unfold pie_keys in Hin. cbn [In] in Hin. destruct Hin as [<-|[<-|[]]].
    - exists "Victim sex_09-30-2025.csv". split; [|reflexivity].
      unfold files. cbn [In]. tauto.
    - exists "Offender sex_09-30-2025.csv". split; [|reflexivity].
      unfold files. cbn [In]. tauto. }
  destruct Hfile as [filename [Hf Hsex]].
  destruct (Hcontent key filename Hf) as [r [df [st [Hget [_ [Hst Hr]]]]]].
  unfold stored in Hst. rewrite Hsex in Hst.
  assert (Hcols : columns st = ["Category"; "Count"]).
  { unfold melt in Hst. destruct (has_column "Count" df); [discriminate|].
    inversion Hst. reflexivity. }
  exists r, st. split; [exact Hget|]. split; [exact Hr|]. split; [exact Hcols|].
  rewrite (plot_pie_chart_ok w' r st title Hr).
  - reflexivity.
  - unfold has_column. rewrite Hcols. reflexivity.
  - unfold has_column. rewrite Hcols. reflexivity.
Qed.

End LoaderMore.

Lemma load_success_effects_witness :
  dict_keys demo_data = dict_keys files /\
  opened demo_world =
    opened empty_world ++ map (os_path_join "/app") (map snd files) /\
  ui demo_world = ui empty_world.
Proof.
  apply (load_success_effects "/app" demo_fs empty_world demo_world demo_data).
  vm_compute. reflexivity.
Defined.

Lemma loaded_sex_tables_draw_witness :
  exists r df,
    dict_get demo_data "victim_sex" = Some r /\
    nth_error (heap demo_world) r = Some df /\
    columns df = ["Category"; "Count"] /\
    fst (plot_pie_chart r "Victim Sex Distribution" demo_world) = Ok tt.
Proof.
  apply (loaded_sex_tables_draw "/app" demo_fs empty_world demo_world demo_data
           "victim_sex" "Victim Sex Distribution").
  - vm_compute. reflexivity.
  - simpl. tauto.
Defined.

(** ** The script as a whole *)

(** Whatever is picked in the sidebar, the label stands for a view. *)
Lemma radio_gives_view (picked : nat) :
  exists view,
    dict_get dataset_options
      (nth picked (dict_keys dataset_options) (hd "" (dict_keys dataset_options))) =
    Some view /\
    In view view_ids.
Proof.
  unfold view_ids.
  do 6 (destruct picked as [|picked];
        [eexists; split; [reflexivity|cbn [In]; tauto]|]).
  destruct picked; eexists; (split; [reflexivity|cbn [In]; tauto]).
Qed.

(** The events between loading and the dashboard block. *)
Definition page_top : list ui_event :=
  [ StSidebarTitle "📊 Navigation";
    StSidebarInfo "Choose a dataset to explore FBI crime data.";
    StSidebarRadio "Go to:" (dict_keys dataset_options);
    StTitle "⚖️ FBI Crime Data Analysis Dashboard";
    StMarkdown "Explore various aspects of FBI-reported crime data with interactive charts and tables.";
    StDivider ].

(** After loading, the script reaches the dashboard block with one of the
    six views, having shown the sidebar and the page header. *)
Lemma script_reaches_dashboard
  (base_dir : string) (fs : string -> outcome DataFrame)
  (argsort : list cell -> list nat) (picked : nat) (w w1 : world)
  (data : option (dict ref)) :
  load_data base_dir fs w = (Ok data, w1) ->
  exists view,
    In view view_ids /\
    script base_dir fs argsort picked w =
    dashboard argsort data view
      {| heap := heap w1; opened := opened w1; ui := ui w1 ++ page_top |}.
Proof.
  intro Hload. destruct (radio_gives_view picked) as [view [Hget Hin]].
  exists view. split; [exact Hin|].
  unfold script. rewrite (bind_ok _ _ _ _ _ Hload).
  unfold st_sidebar_radio, bind at 1 2 3 4, emit, ret. cbn [heap opened ui].
  unfold bind at 1, getitem. rewrite Hget. unfold ret.
  unfold bind, emit. cbn [heap opened ui].
  unfold page_top. repeat rewrite <- app_assoc. reflexivity.
Qed.

(** X11.  Without data the page is the warning: when [load_data] returns
    [None], the script returns normally whatever is picked in the sidebar,
    and after the loader's message it shows the sidebar, the page header and
    the warning that the data could not be loaded; no figure, no table, and
    no frame is touched. *)
Theorem script_without_data_warns
  (base_dir : string) (fs : string -> outcome DataFrame)
  (argsort : list cell -> list nat) (picked : nat) (w w1 : world) :
  load_data base_dir fs w = (Ok None, w1) ->
  script base_dir fs argsort picked w =
  (Ok tt,
   {| heap := heap w1;
      opened := opened w1;
      ui := ui w1 ++ page_top ++
            [StWarning "⚠️ Data could not be loaded. Please ensure all CSV files are in the same directory."] |}).
Proof.
  intro Hload.
  destruct (script_reaches_dashboard base_dir fs argsort picked w w1 None Hload)
    as [view [_ Hrun]].
  rewrite Hrun. unfold dashboard, emit. cbn [heap opened ui].
  rewrite <- app_assoc. reflexivity.
Qed.

Lemma script_without_data_warns_witness :
  script "/app"
    (demo_fs_with "/app/Victim race_09-30-2025.csv"
       (Raise (FileNotFoundError "/app/Victim race_09-30-2025.csv")))
    argsort_stable 4 empty_world =
  (Ok tt,
   {| heap := heap (snd (load_data "/app"
                (demo_fs_with "/app/Victim race_09-30-2025.csv"
                   (Raise (FileNotFoundError "/app/Victim race_09-30-2025.csv")))
                empty_world));
      opened := opened (snd (load_data "/app"
                (demo_fs_with "/app/Victim race_09-30-2025.csv"
                   (Raise (FileNotFoundError "/app/Victim race_09-30-2025.csv")))
                empty_world));
      ui := ui (snd (load_data "/app"
                (demo_fs_with "/app/Victim race_09-30-2025.csv"
                   (Raise (FileNotFoundError "/app/Victim race_09-30-2025.csv")))
                empty_world)) ++ page_top ++
            [StWarning "⚠️ Data could not be loaded. Please ensure all CSV files are in the same directory."] |}).
Proof.
  apply (script_without_data_warns "/app"
           (demo_fs_with "/app/Victim race_09-30-2025.csv"
              (Raise (FileNotFoundError "/app/Victim race_09-30-2025.csv")))
           argsort_stable 4 empty_world).
  vm_compute. reflexivity.
Defined.

(** X12.  A file that cannot be read stops the page: when [load_data]
    raises, the script raises the same exception at once, and nothing at all
    has been shown, neither a message nor the sidebar nor the warning. *)
Theorem script_stops_when_load_raises
  (base_dir : string) (fs : string -> outcome DataFrame)
  (argsort : list cell -> list nat) (picked : nat) (w w1 : world) (e : exn) :
  load_data base_dir fs w = (Raise e, w1) ->
  script base_dir fs argsort picked w = (Raise e, w1) /\ ui w1 = ui w.
Proof.
  intro Hload. split.
  - unfold script, bind at 1. rewrite Hload. reflexivity.
  - pose proof (load_loop_messages base_dir fs files [] w) as H.
    unfold load_data in Hload. rewrite Hload in H. exact H.
Qed.

Lemma script_stops_when_load_raises_witness :
  script "/app"
    (demo_fs_with "/app/Location Type_09-30-2025.csv" (Raise UnicodeDecodeError))
    argsort_stable 0 empty_world =
  (Raise UnicodeDecodeError,
   snd (load_data "/app"
          (demo_fs_with "/app/Location Type_09-30-2025.csv" (Raise UnicodeDecodeError))
          empty_world)) /\
  ui (snd (load_data "/app"
             (demo_fs_with "/app/Location Type_09-30-2025.csv" (Raise UnicodeDecodeError))
             empty_world)) = ui empty_world.
Proof.
  apply (script_stops_when_load_raises "/app"
           (demo_fs_with "/app/Location Type_09-30-2025.csv" (Raise UnicodeDecodeError))
           argsort_stable 0 empty_world).
  vm_compute. reflexivity.
Defined.

(** *** Ten good files: every choice renders *)










(** ** Which tables are reshaped, and in which order *)

Lemma prefix_spec (n h : string) :
  String.prefix n h = true <-> exists post, h = String.append n post.
Proof.
  revert h. induction n as [|c n IH]; intro h.
  - destruct h; simpl; (split; [intros _; eexists; reflexivity|reflexivity]).
  - destruct h as [|c' h]; simpl.
    + split; [discriminate|intros [post H]; discriminate H].
    + destruct (Ascii.ascii_dec c c') as [->|Hne].
      * rewrite IH. split; intros [post H]; exists post.
        -- rewrite H. reflexivity.
        -- inversion H. reflexivity.
      * split; [discriminate|].
        intros [post H]. inversion H. subst. contradiction Hne. reflexivity.
Qed.

(** [str_contains] is the substring test. *)
Lemma str_contains_spec (n h : string) :
  str_contains n h = true <->
  exists pre post, h = String.append pre (String.append n post).
Proof.
  induction h as [|c h IH].
  - cbn [str_contains]. rewrite orb_false_r, prefix_spec. split.
    + intros [post H]. exists "", post. exact H.
    + intros [pre [post H]]. destruct pre as [|c pre]; [|discriminate H].
      exists post. exact H.
  - cbn [str_contains]. rewrite orb_true_iff, prefix_spec, IH. split.
    + intros [[post H]|[pre [post H]]].
      * exists "", post. exact H.
      * exists (String c pre), post. rewrite H. reflexivity.
    + intros [pre [post H]]. destruct pre as [|c' pre].
      * left. exists post. exact H.
      * right. inversion H. exists pre, post. reflexivity.
Qed.

(** X14.  The loader reshapes the table of a key exactly when the text sex
    occurs somewhere in the key: for a file that reads as [df], the entry is
    stored as the melt of [df] when the key contains sex, and as [df] itself,
    unchanged, when it does not. *)
Theorem reshape_iff_key_contains_sex
  (base_dir : string) (fs : string -> outcome DataFrame)
  (data : dict ref) (key filename : string) (df : DataFrame) (w : world) :
  fs (os_path_join base_dir filename) = Ok df ->
  ((exists pre post, key = String.append pre (String.append "sex" post)) ->
   forall long, melt df "Category" "Count" = Ok long ->
     exists r w',
       load_entry base_dir fs data key filename w =
         (Ok (Some (dict_set data key r)), w') /\
       nth_error (heap w') r = Some long) /\
  (~ (exists pre post, key = String.append pre (String.append "sex" post)) ->
   exists r w',
     load_entry base_dir fs data key filename w =
       (Ok (Some (dict_set data key r)), w') /\
     nth_error (heap w') r = Some df).
Proof.
  intro Hfs. split.
  - intros Hsub long Hmelt. apply str_contains_spec in Hsub.
    destruct (load_entry_stored base_dir fs data key filename df long w Hfs)
      as [r [w' [He [Hr _]]]].
    { unfold stored. rewrite Hsub. exact Hmelt. }
    exists r, w'. split; assumption.
  - intro Hnot.
    assert (Hsex : str_contains "sex" key = false).
    { destruct (str_contains "sex" key) eqn:Hc; [|reflexivity].
      exfalso. apply Hnot, str_contains_spec, Hc. }
    destruct (load_entry_stored base_dir fs data key filename df df w Hfs)
      as [r [w' [He [Hr _]]]].
    { unfold stored. rewrite Hsex. reflexivity. }
    exists r, w'. split; assumption.
Qed.

Lemma reshape_iff_key_contains_sex_witness :
  ((exists pre post,
      "offender_sex" = String.append pre (String.append "sex" post)) ->
   forall long, melt victim_sex_wide "Category" "Count" = Ok long ->
     exists r w',
       load_entry "/app" (fun _ => Ok victim_sex_wide) [] "offender_sex"
                  "Offender sex_09-30-2025.csv" empty_world =
         (Ok (Some (dict_set [] "offender_sex" r)), w') /\
       nth_error (heap w') r = Some long) /\
  (~ (exists pre post,
        "offender_sex" = String.append pre (String.append "sex" post)) ->
   exists r w',
     load_entry "/app" (fun _ => Ok victim_sex_wide) [] "offender_sex"
                "Offender sex_09-30-2025.csv" empty_world =
       (Ok (Some (dict_set [] "offender_sex" r)), w') /\
     nth_error (heap w') r = Some victim_sex_wide).
Proof.
  exact (reshape_iff_key_contains_sex "/app" (fun _ => Ok victim_sex_wide) []
           "offender_sex" "Offender sex_09-30-2025.csv" victim_sex_wide
           empty_world eq_refl).
Defined.

(** The molten rows come in blocks, one per column, each as long as the
    frame. *)
Lemma molten_nth (rs : list (list cell)) (cs : list string) (s k i : nat) :
  k < length cs -> i < length rs ->
  nth (k * length rs + i)
      (flat_map (fun jc : nat * string =>
                   map (fun r => [Str (snd jc); cell_at (fst jc) r]) rs)
                (combine (seq s (length cs)) cs)) [] =
  [Str (nth k cs ""); cell_at (s + k) (nth i rs [])].
Proof.
  revert s k. induction cs as [|c cs IH]; intros s k Hk Hi; simpl in Hk; [lia|].
  cbn [length seq combine flat_map fst snd].
  destruct k as [|k].
  - cbn [Nat.mul Nat.add nth]. rewrite app_nth1 by (rewrite length_map; exact Hi).
    rewrite (nth_indep _ [] ((fun r => [Str c; cell_at s r]) []))
      by (rewrite length_map; exact Hi).
    rewrite (map_nth (fun r => [Str c; cell_at s r])).
    rewrite Nat.add_0_r. reflexivity.
  - rewrite app_nth2 by (rewrite length_map; simpl; lia).
    rewrite length_map.
    replace (S k * length rs + i - length rs) with (k * length rs + i)
      by (simpl; lia).
    rewrite (IH (S s) k) by lia.
    cbn [nth]. replace (S s + k) with (s + S k) by lia. reflexivity.
Qed.

(** [melt] goes column by column: row k * r + i of the long form of a frame
    of r rows pairs the label of column k with the cell of row i in that
    column. *)
Lemma melt_rows_column_by_column (df long : DataFrame) (k i : nat) :
  melt df "Category" "Count" = Ok long ->
  k < length (columns df) -> i < length (rows df) ->
  nth (k * length (rows df) + i) (rows long) [] =
  [Str (nth k (columns df) ""); cell_at k (nth i (rows df) [])].
Proof.
  intros Hmelt Hk Hi. unfold melt in Hmelt.
  destruct (has_column "Count" df); [discriminate|].
  inversion Hmelt. cbn [rows]. unfold enumerate.
  apply (molten_nth (rows df) (columns df) 0 k i Hk Hi).
Qed.

(** ** One bad table blanks a demographics view *)

Lemma plot_bar_chart_no_column (argsort : list cell -> list nat) (df : ref)
  (d : DataFrame) (title x y color : string) (w : world) :
  nth_error (heap w) df = Some d ->
  has_column y d = false ->
  plot_bar_chart argsort df title x y color w = (Raise (KeyError y), w).
Proof.
  intros Hd Hy.
  unfold plot_bar_chart, df_sort_values, bind, deref, lift. rewrite Hd.
  unfold sort_values, get_column.
  destruct (col_index y (columns d)) eqn:Hj; [|reflexivity].
  exfalso. pose proof (proj2 (has_column_index y d)) as H.
  rewrite Hj in H. rewrite H in Hy; discriminate.
Qed.

(** X16.  In a demographics view the race chart comes first and its failure
    ends the view: when the race table has no column of counts, the dashboard
    raises [KeyError] for that column inside the first layout column, which
    it still leaves, and neither the ethnicity chart nor the donut nor any
    table is shown, whatever state the other two tables are in. *)
Theorem demographics_stop_at_bad_race_table
  (argsort : list cell -> list nat) (w : world) (d : dict ref)
  (view race_key : string) (r : ref) (race : DataFrame) :
  (view, race_key) = ("victim_demographics", "victim_race") \/
  (view, race_key) = ("offender_demographics", "offender_race") ->
  dict_get d race_key = Some r ->
  nth_error (heap w) r = Some race ->
  has_column "value" race = false ->
  exists w' events,
    dashboard argsort (Some d) view w = (Raise (KeyError "value"), w') /\
    heap w' = heap w /\
    ui w' = ui w ++ events /\
    charts events = [] /\ tables events = [] /\
    last events StDivider = StExit 1.
Proof.
  intros Hview Hget Hr Hno.
  assert (Hd : exists entry d', d = entry :: d').
  { destruct d as [|entry d']; [discriminate Hget|].
    exists entry, d'. reflexivity. }
  destruct Hd as [entry [d' Hd]].
  destruct Hview as [Hview|Hview]; inversion Hview; subst view race_key;
    rewrite Hd; cbn [dashboard]; rewrite <- Hd;
    unfold render_view; cbn [String.eqb Ascii.eqb Bool.eqb];
    unfold with_column, bind, emit, getitem; cbn [heap opened ui];
    rewrite Hget; unfold ret;
    (erewrite (plot_bar_chart_no_column argsort r race);
       [|cbn [heap]; exact Hr|exact Hno]);
    cbn [heap opened ui snd];
    eexists; eexists; (split; [reflexivity|]); cbn [heap ui];
    (split; [reflexivity|]);
    (split; [repeat rewrite <- app_assoc; reflexivity|]);
    repeat split.
Qed.

Lemma demographics_stop_at_bad_race_table_witness :
  exists w' events,
    dashboard argsort_stable (Some [("victim_race", 9)]) "victim_demographics"
      demo_world = (Raise (KeyError "value"), w') /\
    heap w' = heap demo_world /\
    ui w' = ui demo_world ++ events /\
    charts events = [] /\ tables events = [] /\
    last events StDivider = StExit 1.
Proof.
  apply (demographics_stop_at_bad_race_table argsort_stable demo_world
           [("victim_race", 9)] "victim_demographics" "victim_race" 9
           {| columns := ["Category"; "Count"];
              rows := [ [Str "Male"; Num 600]; [Str "Female"; Num 400];
                        [Str "Unknown"; Num 10] ] |}).
  - left. reflexivity.
  - reflexivity.
  - reflexivity.
  - reflexivity.
Defined.

(** * The ranking, the reshape and the selection as the script performs them *)

(** ** [plot_bar_chart] on a table of counts *)

Section BarChart.

Variable argsort : list cell -> list nat.
Hypothesis argsort_ok : argsort_sorts argsort.

(** On a live frame with a column of counts [y] and the columns [x] and
    [color], [plot_bar_chart] returns: it has made the sorted frame and its
    first 20 rows, and shown the figure and the table of those rows. *)
Lemma plot_bar_chart_shows (w : world) (r : ref) (df : DataFrame)
  (title x y color : string) :
  nth_error (heap w) r = Some df ->
  count_column df y = true ->
  has_column x df = true ->
  has_column color df = true ->
  exists sorted,
    sort_values argsort df y false = Ok sorted /\
    plot_bar_chart argsort r title x y color w =
    (Ok tt,
     {| heap := (heap w ++ [sorted]) ++ [head sorted 20];
        opened := opened w;
        ui := ui w ++
              [ StPlotlyChart (Plotly.Bar (head sorted 20) x y color title);
                StDataframe (head sorted 20) true ] |}).
Proof.
  intros Hr Hcount Hx Hcolor.
  destruct (count_column_items df y Hcount) as [items [Hcol Hall]].
  destruct (sort_values_descending argsort argsort_ok df y items Hcol Hall)
    as [ix [Hsort _]].
  eexists. split; [exact Hsort|].
  set (sorted := {| columns := columns df;
                    rows := map (fun i => nth i (rows df) []) (ix ++ missing_idx items) |})
    in *.
  assert (Hx' : has_column x (head sorted 20) = true) by exact Hx.
  assert (Hy' : has_column y (head sorted 20) = true)
    by exact (count_column_has df y Hcount).
  assert (Hc' : has_column color (head sorted 20) = true) by exact Hcolor.
  unfold plot_bar_chart, df_sort_values, df_head, px_bar, st_plotly_chart,
    st_dataframe, bind, deref, lift, alloc, emit.
  rewrite Hr, Hsort. cbn [heap opened ui].
  rewrite nth_error_last. cbn [heap opened ui].
  rewrite nth_error_last.
  unfold Plotly.bar. rewrite Hx', Hy', Hc'. cbn [andb heap opened ui].
  rewrite nth_error_last. cbn [heap opened ui].
  rewrite <- (app_assoc (ui w)). reflexivity.
Qed.

End BarChart.


(** C2.  For a stored table of m rows with a column of counts [y] (and the
    columns [x] and [color] the figure needs), [plot_bar_chart] returns and
    the table it shows, in the figure and in the grid, has exactly min(m, 20)
    rows; the count of each row is at least the count of the row after it (a
    missing count being below every number); its columns are those of the
    stored table and its rows are the first 20 of a rearrangement of the
    stored rows, each kept whole. *)
Theorem bar_chart_ranked_rows
  (argsort : list cell -> list nat) (w : world) (r : ref) (df : DataFrame)
  (title x y color : string) :
  argsort_sorts argsort ->
  nth_error (heap w) r = Some df ->
  count_column df y = true ->
  has_column x df = true ->
  has_column color df = true ->
  exists shown w',
    plot_bar_chart argsort r title x y color w = (Ok tt, w') /\
    ui w' = ui w ++ [ StPlotlyChart (Plotly.Bar shown x y color title);
                      StDataframe shown true ] /\
    length (rows shown) = Nat.min (length (rows df)) 20 /\
    columns shown = columns df /\
    (exists p, Permutation p (rows df) /\ rows shown = firstn 20 p) /\
    exists counts,
      get_column shown y = Ok counts /\
      forall i, S i < length counts ->
        count_ge (nth i counts NaN) (nth (S i) counts NaN).
Proof.
  intros Hok Hr Hcount Hx Hcolor.
  destruct (plot_bar_chart_shows argsort Hok w r df title x y color
              Hr Hcount Hx Hcolor) as [sorted [Hsort Hrun]].
  destruct (ranked_bar_rows argsort Hok df y Hcount)
    as [sorted' [Hsort' [Hlen [Hcols [Hperm Hdesc]]]]].
  rewrite Hsort in Hsort'. inversion Hsort'; subst sorted'.
  exists (head sorted 20). eexists. split; [exact Hrun|].
  cbn [ui]. split; [reflexivity|].
  split; [exact Hlen|]. split; [exact Hcols|]. split; [exact Hperm|exact Hdesc].
Qed.

Lemma bar_chart_ranked_rows_witness :
  exists shown w',
    plot_bar_chart argsort_stable 1 "Weapon Types in Offenses"
      "key" "value" "key" demo_world = (Ok tt, w') /\
    ui w' = ui demo_world ++
            [ StPlotlyChart
                (Plotly.Bar shown "key" "value" "key" "Weapon Types in Offenses");
              StDataframe shown true ] /\
    length (rows shown) = Nat.min (length (rows weapon_table)) 20 /\
    columns shown = columns weapon_table /\
    (exists p, Permutation p (rows weapon_table) /\ rows shown = firstn 20 p) /\
    exists counts,
      get_column shown "value" = Ok counts /\
      forall i, S i < length counts ->
        count_ge (nth i counts NaN) (nth (S i) counts NaN).
Proof.
  exact (bar_chart_ranked_rows argsort_stable demo_world 1 weapon_table
           "Weapon Types in Offenses" "key" "value" "key"
           argsort_stable_sorts eq_refl eq_refl eq_refl eq_refl).
Defined.



(** The location view of the demo: the row with the missing count is shown
    last. *)
Example location_view_demo :
  match plot_bar_chart argsort_stable 3 "Top 20 Crime Locations"
          "key" "value" "key" demo_world with
  | (Ok tt, w') =>
      tables (skipn (length (ui demo_world)) (ui w')) =
      [ key_value [("Residence", Num 7); ("Highway", Num 7); ("Bar", NaN)] ]
  | _ => False
  end.
Proof. vm_compute. reflexivity. Qed.

(** X1.  The bar chart shows the largest counts: on a stored table with a
    column of counts [y], every row [plot_bar_chart] shows has a count at
    least as large as that of every row it leaves out, a missing count being
    below every number; the rows shown and the rows left out are together a
    rearrangement of the rows of the table. *)
Theorem bar_chart_shows_largest_counts
  (argsort : list cell -> list nat) (w : world) (r : ref) (df : DataFrame)
  (title x y color : string) (j : nat) :
  argsort_sorts argsort ->
  nth_error (heap w) r = Some df ->
  col_index y (columns df) = Some j ->
  count_column df y = true ->
  has_column x df = true ->
  has_column color df = true ->
  exists shown left_out w',
    plot_bar_chart argsort r title x y color w = (Ok tt, w') /\
    ui w' = ui w ++ [ StPlotlyChart (Plotly.Bar shown x y color title);
                      StDataframe shown true ] /\
    Permutation (rows shown ++ left_out) (rows df) /\
    forall kept dropped,
      In kept (rows shown) -> In dropped left_out ->
      count_ge (cell_at j kept) (cell_at j dropped).
Proof.
  intros Hok Hr Hj Hcount Hx Hcolor.
  destruct (plot_bar_chart_shows argsort Hok w r df title x y color
              Hr Hcount Hx Hcolor) as [sorted [Hsort Hrun]].
  destruct (top20_dominates_dropped argsort Hok df y j Hj Hcount)
    as [sorted' [Hsort' [Hperm Hdom]]].
  rewrite Hsort in Hsort'. inversion Hsort'; subst sorted'.
  exists (head sorted 20), (skipn 20 (rows sorted)). eexists.
  split; [exact Hrun|]. cbn [ui]. split; [reflexivity|].
  split; [exact Hperm|exact Hdom].
Qed.

Lemma bar_chart_shows_largest_counts_witness :
  exists shown left_out w',
    plot_bar_chart argsort_stable 1 "Weapon Types in Offenses"
      "key" "value" "key" demo_world = (Ok tt, w') /\
    ui w' = ui demo_world ++
            [ StPlotlyChart
                (Plotly.Bar shown "key" "value" "key" "Weapon Types in Offenses");
              StDataframe shown true ] /\
    Permutation (rows shown ++ left_out) (rows weapon_table) /\
    forall kept dropped,
      In kept (rows shown) -> In dropped left_out ->
      count_ge (cell_at 1 kept) (cell_at 1 dropped).
Proof.
  exact (bar_chart_shows_largest_counts argsort_stable demo_world 1 weapon_table
           "Weapon Types in Offenses" "key" "value" "key" 1
           argsort_stable_sorts eq_refl eq_refl eq_refl eq_refl eq_refl).
Defined.

(** X2.  A stored table of at most 20 rows with a column of counts is shown
    whole: the rows [plot_bar_chart] shows are a rearrangement of all rows of
    the table. *)
Theorem bar_chart_shows_small_table_whole
  (argsort : list cell -> list nat) (w : world) (r : ref) (df : DataFrame)
  (title x y color : string) :
  argsort_sorts argsort ->
  nth_error (heap w) r = Some df ->
  count_column df y = true ->
  has_column x df = true ->
  has_column color df = true ->
  length (rows df) <= 20 ->
  exists shown w',
    plot_bar_chart argsort r title x y color w = (Ok tt, w') /\
    ui w' = ui w ++ [ StPlotlyChart (Plotly.Bar shown x y color title);
                      StDataframe shown true ] /\
    Permutation (rows shown) (rows df).
Proof.
  intros Hok Hr Hcount Hx Hcolor Hlen.
  destruct (plot_bar_chart_shows argsort Hok w r df title x y color
              Hr Hcount Hx Hcolor) as [sorted [Hsort Hrun]].
  destruct (small_table_shown_whole argsort Hok df y Hcount Hlen)
    as [sorted' [Hsort' Hperm]].
  rewrite Hsort in Hsort'. inversion Hsort'; subst sorted'.
  exists (head sorted 20). eexists.
  split; [exact Hrun|]. cbn [ui]. split; [reflexivity|exact Hperm].
Qed.

Lemma bar_chart_shows_small_table_whole_witness :
  exists shown w',
    plot_bar_chart argsort_stable 3 "Top 20 Crime Locations"
      "key" "value" "key" demo_world = (Ok tt, w') /\
    ui w' = ui demo_world ++
            [ StPlotlyChart
                (Plotly.Bar shown "key" "value" "key" "Top 20 Crime Locations");
              StDataframe shown true ] /\
    Permutation (rows shown)
      (rows (key_value [("Residence", Num 7); ("Highway", Num 7); ("Bar", NaN)])).
Proof.
  apply (bar_chart_shows_small_table_whole argsort_stable demo_world 3
           (key_value [("Residence", Num 7); ("Highway", Num 7); ("Bar", NaN)])
           "Top 20 Crime Locations" "key" "value" "key"
           argsort_stable_sorts eq_refl eq_refl eq_refl eq_refl).
  simpl. lia.
Defined.

(** ** Ties *)







(** ** The reshape as the loader performs it *)

(** C10.  The loader's reshape has no single-row guard: for a key that
    contains [sex] and a file read as a table of r rows and c columns (all
    rows of full width, no column already named Count), [load_entry] stores
    under the key a table with the two columns Category and Count and
    exactly r * c rows, whose Count column sums to the sum of all cells of
    the table read. *)
Theorem loader_melts_every_row
  (base_dir : string) (fs : string -> outcome DataFrame)
  (data : dict ref) (key filename : string) (df : DataFrame) (w : world) :
  str_contains "sex" key = true ->
  fs (os_path_join base_dir filename) = Ok df ->
  rectangular df ->
  has_column "Count" df = false ->
  exists r long w',
    load_entry base_dir fs data key filename w =
      (Ok (Some (dict_set data key r)), w') /\
    nth_error (heap w') r = Some long /\
    columns long = ["Category"; "Count"] /\
    Forall (fun row => length row = 2) (rows long) /\
    length (rows long) = length (rows df) * length (columns df) /\
    column_sum long "Count" = cells_sum df.
Proof.
  intros Hsex Hfs Hrect Hno.
  destruct (melt_rows_times_columns df Hrect Hno)
    as [long [Hmelt [Hcols [Hwidth [Hlen Hsum]]]]].
  assert (Hst : stored key df = Ok long).
  { unfold stored. rewrite Hsex. exact Hmelt. }
  destruct (load_entry_stored base_dir fs data key filename df long w Hfs Hst)
    as [r [w' [Hrun [Hr _]]]].
  exists r, long, w'.
  split; [exact Hrun|]. split; [exact Hr|]. split; [exact Hcols|].
  split; [exact Hwidth|]. split; [exact Hlen|exact Hsum].
Qed.

Lemma loader_melts_every_row_witness :
  exists r long w',
    load_entry "/app"
      (demo_fs_with "/app/Victim sex_09-30-2025.csv" (Ok two_by_two))
      [] "victim_sex" "Victim sex_09-30-2025.csv" empty_world =
      (Ok (Some (dict_set [] "victim_sex" r)), w') /\
    nth_error (heap w') r = Some long /\
    columns long = ["Category"; "Count"] /\
    Forall (fun row => length row = 2) (rows long) /\
    length (rows long) = length (rows two_by_two) * length (columns two_by_two) /\
    column_sum long "Count" = cells_sum two_by_two.
Proof.
  apply (loader_melts_every_row "/app"
           (demo_fs_with "/app/Victim sex_09-30-2025.csv" (Ok two_by_two))
           [] "victim_sex" "Victim sex_09-30-2025.csv" two_by_two empty_world).
  - reflexivity.
  - reflexivity.
  - repeat constructor.
  - reflexivity.
Defined.

(** The two-row file of the witness, as the loader stores it. *)
Example load_two_by_two :
  load_entry "/app"
    (demo_fs_with "/app/Victim sex_09-30-2025.csv" (Ok two_by_two))
    [] "victim_sex" "Victim sex_09-30-2025.csv" empty_world =
  (Ok (Some [("victim_sex", 1)]),
   {| heap := [ two_by_two;
                {| columns := ["Category"; "Count"];
                   rows := [ [Str "Male"; Num 1]; [Str "Male"; Num 3];
                             [Str "Female"; Num 2]; [Str "Female"; NaN] ] |} ];
      opened := ["/app/Victim sex_09-30-2025.csv"];
      ui := [] |}).
Proof. reflexivity. Qed.

(** X15.  The table the loader stores for a sex key is ordered column by
    column: when the file is read as a table of r rows (no column already
    named Count), row k*r+i of the table [load_entry] stores pairs the label
    of column k with the cell of row i in that column. *)
Theorem loader_melts_column_by_column
  (base_dir : string) (fs : string -> outcome DataFrame)
  (data : dict ref) (key filename : string) (df : DataFrame) (w : world)
  (k i : nat) :
  str_contains "sex" key = true ->
  fs (os_path_join base_dir filename) = Ok df ->
  has_column "Count" df = false ->
  k < length (columns df) -> i < length (rows df) ->
  exists r long w',
    load_entry base_dir fs data key filename w =
      (Ok (Some (dict_set data key r)), w') /\
    nth_error (heap w') r = Some long /\
    nth (k * length (rows df) + i) (rows long) [] =
    [Str (nth k (columns df) ""); cell_at k (nth i (rows df) [])].
Proof.
  intros Hsex Hfs Hno Hk Hi.
  assert (Hmelt : exists long, melt df "Category" "Count" = Ok long).
  { unfold melt. rewrite Hno. eexists. reflexivity. }
  destruct Hmelt as [long Hmelt].
  assert (Hst : stored key df = Ok long).
  { unfold stored. rewrite Hsex. exact Hmelt. }
  destruct (load_entry_stored base_dir fs data key filename df long w Hfs Hst)
    as [r [w' [Hrun [Hr _]]]].
  exists r, long, w'.
  split; [exact Hrun|]. split; [exact Hr|].
  exact (melt_rows_column_by_column df long k i Hmelt Hk Hi).
Qed.

Lemma loader_melts_column_by_column_witness :
  exists r long w',
    load_entry "/app"
      (demo_fs_with "/app/Victim sex_09-30-2025.csv" (Ok two_by_two))
      [] "victim_sex" "Victim sex_09-30-2025.csv" empty_world =
      (Ok (Some (dict_set [] "victim_sex" r)), w') /\
    nth_error (heap w') r = Some long /\
    nth (1 * length (rows two_by_two) + 0) (rows long) [] =
    [Str (nth 1 (columns two_by_two) ""); cell_at 1 (nth 0 (rows two_by_two) [])].
Proof.
  apply (loader_melts_column_by_column "/app"
           (demo_fs_with "/app/Victim sex_09-30-2025.csv" (Ok two_by_two))
           [] "victim_sex" "Victim sex_09-30-2025.csv" two_by_two empty_world 1 0).
  - reflexivity.
  - reflexivity.
  - reflexivity.
  - simpl. lia.
  - simpl. lia.
Defined.

(** ** The selection *)


Lemma dict_get_present {V : Type} (d : dict V) (k : string) :
  In k (dict_keys d) -> exists v, dict_get d k = Some v.
Proof.
  induction d as [|[k' v] d IH]; intro Hk; [destruct Hk|].
  cbn [dict_get]. destruct (String.eqb k k') eqn:E.
  - exists v. reflexivity.
  - destruct Hk as [Hk|Hk]; [|exact (IH Hk)].
    cbn [fst] in Hk. subst k'. rewrite String.eqb_refl in E. discriminate E.
Qed.







(** The selector on the demo: the label of the weapon view draws one figure
    and one table; the identifier itself is no label, and neither is a label
    in another case. *)
Example selector_demo :
  fst (selected_view argsort_stable (Some demo_data) "Type of Weapon Involved"
         demo_world) = Ok tt /\
  length (charts (ui (snd (selected_view argsort_stable (Some demo_data)
                             "Type of Weapon Involved" demo_world)))) = 1 /\
  selected_view argsort_stable (Some demo_data) "weapon_type" demo_world =
    (Raise (KeyError "weapon_type"), demo_world) /\
  selected_view argsort_stable (Some demo_data) "location type" demo_world =
    (Raise (KeyError "location type"), demo_world).
Proof. vm_compute. repeat split; reflexivity. Qed.
